(** * pandevice: Panorama device reconciliation and network interfaces

    A shallow embedding of [pandevice/panorama.py] ([Panorama.commit_all],
    [Panorama.refresh_devices]) and of [pandevice/network.py] ([Interface]),
    together with the properties of the specification that concern them.

    Conventions of the embedding:
    - a Python [str] is a [string]; [None] is the [None] of an [option];
    - an exception is a value of [exn]; code that can raise returns a
      [result];
    - an [xml.etree.ElementTree.Element] is an [element]; [deepcopy] of an
      element is the element itself, since values are immutable here;
    - the remote API is a log of the calls issued, in order. *)

From Stdlib Require Import Ascii String.
From stdpp Require Import base tactics option list strings.

Open Scope string_scope.
Set Warnings "-register-all".

(** ** Exceptions and results *)

Inductive exn : Type :=
  | PanNotConnectedOnPanorama (msg : string)
  | PanNotAttachedOnPanorama (msg : string)
  | PanDeviceError (msg : string)
  | PanXapiError (msg : string)
  | AttributeError
  | TypeError
  | ValueError
  | KeyError
  | IndexError.

Inductive result (A : Type) : Type :=
  | Ok (a : A)
  | Raise (e : exn).
Arguments Ok {A} a.
Arguments Raise {A} e.

#[global] Instance result_ret : MRet result := fun A a => Ok a.
#[global] Instance result_bind : MBind result := fun A B f m =>
  match m with
  | Ok a => f a
  | Raise e => Raise e
  end.

#[global] Instance result_fmap : FMap result := fun A B f m =>
  match m with
  | Ok a => Ok (f a)
  | Raise e => Raise e
  end.

Definition is_ok {A} (r : result A) : bool :=
  match r with Ok _ => true | Raise _ => false end.

(** ** ElementTree *)

Module ET.

(** An attribute value is whatever Python object was stored: the parser
    stores strings, [refresh_devices] may store [None] (the result of a
    [findtext] that found nothing). *)
Inductive element : Type :=
  Element (tag : string) (attrib : list (string * option string))
          (text : option string) (children : list element).

Definition tag (e : element) : string :=
  match e with Element t _ _ _ => t end.
Definition attrib (e : element) : list (string * option string) :=
  match e with Element _ a _ _ => a end.
Definition text (e : element) : option string :=
  match e with Element _ _ x _ => x end.
Definition children (e : element) : list element :=
  match e with Element _ _ _ c => c end.

Fixpoint assoc {V} (k : string) (l : list (string * V)) : option V :=
  match l with
  | [] => None
  | (k', v) :: l' => if decide (k' = k) then Some v else assoc k l'
  end.

Fixpoint assoc_set {V} (k : string) (v : V) (l : list (string * V))
  : list (string * V) :=
  match l with
  | [] => [(k, v)]
  | (k', v') :: l' =>
      if decide (k' = k) then (k, v) :: l' else (k', v') :: assoc_set k v l'
  end.

(** [elem.get(key)]: [None] both for a missing key and for a stored [None]. *)
Definition get (k : string) (e : element) : option string :=
  default None (assoc k (attrib e)).

(** [elem.set(key, value)] *)
Definition set (k : string) (v : option string) (e : element) : element :=
  Element (tag e) (assoc_set k v (attrib e)) (text e) (children e).

(** [elem.append(child)] *)
Definition append (c : element) (e : element) : element :=
  Element (tag e) (attrib e) (text e) (children e ++ [c]).

(** [ET.SubElement(parent, tag, attrib)] followed by [.text = text]: the
    parent with the new child appended. *)
Definition SubElement (parent : element) (t : string)
    (a : list (string * option string)) (x : option string) : element :=
  append (Element t a x []) parent.

(** The steps of the ElementPath expressions the code uses: [tag] and
    [tag[@name='value']]. *)
Inductive step : Type :=
  | Tag (t : string)
  | TagName (t : string) (name : string).

Definition step_match (s : step) (e : element) : bool :=
  match s with
  | Tag t => bool_decide (tag e = t)
  | TagName t n => bool_decide (tag e = t) && bool_decide (get "name" e = Some n)
  end.

(** One step selects, for every context element in order, its matching
    children in document order. *)
Definition select (s : step) (ctx : list element) : list element :=
  flat_map (fun p => List.filter (step_match s) (children p)) ctx.

Definition findall_from (path : list step) (ctx : list element) : list element :=
  fold_left (fun c s => select s c) path ctx.

(** [elem.findall(path)], [elem.find(path)], [elem.findtext(path)] *)
Definition findall (path : list step) (e : element) : list element :=
  findall_from path [e].

Definition find (path : list step) (e : element) : option element :=
  head (findall path e).

Definition findtext (path : list step) (e : element) : option string :=
  match find path e with
  | Some x => Some (default "" (text x))
  | None => None
  end.

(** [elem.remove(child)] for the first child with the given tag; the code
    calls it on the result of [elem.find(tag)], and [remove(None)] raises. *)
Fixpoint remove_first_tag (t : string) (l : list element) : option (list element) :=
  match l with
  | [] => None
  | c :: l' =>
      if decide (tag c = t) then Some l'
      else cons c <$> remove_first_tag t l'
  end.

End ET.

Import ET.

(** [str(x)] / ["%s" % x] of a value that is a string or [None]. *)
Definition pystr (o : option string) : string := default "None" o.

(** Truth value of a string or [None]: [None] and [""] are false. *)
Definition truthy (o : option string) : bool :=
  match o with
  | Some s => negb (bool_decide (s = ""))
  | None => false
  end.

(** ** Regular expressions

    The two patterns of [network.py] are built from literal text, greedy
    runs of [\d] and [$].  [rmatch r s] lists what is left of [s] after
    each way [r] can match a prefix of it, in the order Python's
    backtracking matcher tries them.  [\d] is [[0-9]] (a byte string),
    and [$] matches at the end of the string and just before a newline
    that ends it. *)

Module Re.

Inductive regex : Type :=
  | Lit (s : string)
  | Digits (lo : nat) (hi : option nat)
  | Dollar
  | Seq (r1 r2 : regex).

Definition is_digit (c : ascii) : bool :=
  let n := nat_of_ascii c in (48 <=? n)%nat && (n <=? 57)%nat.

Fixpoint digit_run (s : string) : nat :=
  match s with
  | String c s' => if is_digit c then S (digit_run s') else 0
  | EmptyString => 0
  end.

Fixpoint drop (n : nat) (s : string) : string :=
  match n, s with
  | S n', String _ s' => drop n' s'
  | _, _ => s
  end.

Fixpoint take (n : nat) (s : string) : string :=
  match n, s with
  | S n', String c s' => String c (take n' s')
  | _, _ => ""
  end.

Fixpoint strip_prefix (p s : string) : option string :=
  match p, s with
  | EmptyString, _ => Some s
  | String a p', String b s' => if decide (a = b) then strip_prefix p' s' else None
  | String _ _, EmptyString => None
  end.

(** [k] from [hi] down to [lo] *)
Fixpoint downto (lo hi : nat) : list nat :=
  if decide (hi < lo) then []
  else match hi with
       | O => [O]
       | S h => hi :: downto lo h
       end.

Fixpoint rmatch (r : regex) (s : string) : list string :=
  match r with
  | Lit l => match strip_prefix l s with Some t => [t] | None => [] end
  | Digits lo hi =>
      let n := digit_run s in
      let m := match hi with Some h => n `min` h | None => n end in
      (fun k => drop k s) <$> downto lo m
  | Dollar =>
      if decide (s = "" \/ s = String "010"%char "") then [s] else []
  | Seq r1 r2 => flat_map (rmatch r2) (rmatch r1 s)
  end.

(** The suffixes of [s], from position 0 to the end: the start positions
    [re.search] tries, in order. *)
Fixpoint suffixes (s : string) : list string :=
  match s with
  | EmptyString => [""]
  | String _ s' => s :: suffixes s'
  end.

(** [re.search(r, s)] as a truth value. *)
Definition search (r : regex) (s : string) : bool :=
  existsb (fun t => negb (bool_decide (rmatch r t = []))) (suffixes s).

(** [re.search("(g)rest", s)]: [match.group(1)] of the match found. *)
Definition group_at (g rest : regex) (t : string) : option string :=
  (fun r => take (String.length t - String.length r) t) <$>
  head (filter (fun r => rmatch rest r <> []) (rmatch g t)).

Definition search_group (g rest : regex) (s : string) : option string :=
  head (omap (group_at g rest) (suffixes s)).

(** [str.split(sep)] for a one-character separator. *)
Fixpoint split (sep : ascii) (s : string) : list string :=
  match s with
  | EmptyString => [""]
  | String c s' =>
      if decide (c = sep) then "" :: split sep s'
      else match split sep s' with
           | w :: ws => String c w :: ws
           | [] => [String c ""]
           end
  end.

End Re.

(** r"\.\d+$" *)
Definition re_dot_digits_end : Re.regex :=
  Re.Seq (Re.Lit ".") (Re.Seq (Re.Digits 1 None) Re.Dollar).

(** r"(ethernet\d/\d{1,3})\.\d{1,4}": the group, and what follows it. *)
Definition re_subunit_group : Re.regex :=
  Re.Seq (Re.Lit "ethernet")
    (Re.Seq (Re.Digits 1 (Some 1)) (Re.Seq (Re.Lit "/") (Re.Digits 1 (Some 3)))).
Definition re_subunit_rest : Re.regex :=
  Re.Seq (Re.Lit ".") (Re.Digits 1 (Some 4)).

(** ** The remote device: the API calls issued, in order *)

Inductive api_call : Type :=
  | xapi_edit (xpath element : string)
  | xapi_set (xpath element : string)
  | xapi_delete (xpath : string).

(** What the code can observe and change of a [PanDevice]: the
    config-changed flag of [set_config_changed] and the calls sent through
    [xapi]. *)
Record PanDevice : Type := mkPanDevice {
  config_changed : bool;
  calls : list api_call;
}.

(** Code that talks to the device: the device state is threaded through,
    and is kept when an exception is raised. *)
Definition M (A : Type) : Type := PanDevice -> PanDevice * result A.

#[global] Instance M_ret : MRet M := fun A a dev => (dev, Ok a).
#[global] Instance M_bind : MBind M := fun A B f m dev =>
  match m dev with
  | (dev', Ok a) => f a dev'
  | (dev', Raise e) => (dev', Raise e)
  end.

Definition lift {A} (r : result A) : M A := fun dev => (dev, r).
Definition when (b : bool) (m : M unit) : M unit :=
  if b then m else mret tt.

Definition set_config_changed : M unit :=
  fun dev => (mkPanDevice true (calls dev), Ok tt).

(** ** network.py: Interface *)

Inductive Interface : Type := mkInterface {
  name : option string;
  type : string;
  mode : string;
  _tag : option string;
  _zone : option string;
  router : option string;
  parent : option Interface;
  subinterfaces : list (string * Interface);
  apply_changes : bool;
  (** the device handle; the device itself is the state of [M] *)
  pan_device : option string;
  _subnets : list string;
  state : option string;
}.

(** The [subnets] argument: [None], a list, or a single value. *)
Inductive subnets_arg : Type :=
  | SubnetsNone
  | SubnetsList (l : list string)
  | SubnetsOne (s : string).

Definition with_name (n : option string) (i : Interface) : Interface :=
  mkInterface n (type i) (mode i) (_tag i) (_zone i) (router i) (parent i)
    (subinterfaces i) (apply_changes i) (pan_device i) (_subnets i) (state i).
Definition with_tag (t : option string) (i : Interface) : Interface :=
  mkInterface (name i) (type i) (mode i) t (_zone i) (router i) (parent i)
    (subinterfaces i) (apply_changes i) (pan_device i) (_subnets i) (state i).
Definition with_zone (z : option string) (i : Interface) : Interface :=
  mkInterface (name i) (type i) (mode i) (_tag i) z (router i) (parent i)
    (subinterfaces i) (apply_changes i) (pan_device i) (_subnets i) (state i).
Definition with_subnets (l : list string) (i : Interface) : Interface :=
  mkInterface (name i) (type i) (mode i) (_tag i) (_zone i) (router i) (parent i)
    (subinterfaces i) (apply_changes i) (pan_device i) l (state i).
Definition with_state (s : option string) (i : Interface) : Interface :=
  mkInterface (name i) (type i) (mode i) (_tag i) (_zone i) (router i) (parent i)
    (subinterfaces i) (apply_changes i) (pan_device i) (_subnets i) s.

Section Pandevice.

Set Default Proof Using "Type".

(** Constants of the [pandevice] package, declared outside [network.py]. *)
Variable XPATH_INTERFACES : string.
Variable XPATH_ZONE : string.
Variable XPATH_DEFAULT_VROUTER_INTERFACES : string.

(** [ET.tostring] of the standard library; it raises for an attribute that
    is not a string. *)
Variable tostring : element -> result string.

(** The outcome of a remote call, given the calls issued up to and
    including it: [Some e] when the API client raises [e]. *)
Variable xapi_fault : list api_call -> option exn.

(** [self.pan_device.xapi.<call>(...)]: the call is sent, then may fail.
    Without a device the attribute lookup fails before anything is sent. *)
Definition xapi (i : Interface) (c : api_call) : M unit :=
  fun dev =>
    match pan_device i with
    | None => (dev, Raise AttributeError)
    | Some _ =>
        let dev' := mkPanDevice (config_changed dev) (calls dev ++ [c]) in
        match xapi_fault (calls dev') with
        | Some e => (dev', Raise e)
        | None => (dev', Ok tt)
        end
    end.

Definition entry_elem (n : option string) (cs : list element) : element :=
  Element "entry" [("name", n)] None cs.

(** The children added to [settings]: the [ip] entries of a layer3
    interface with subnets, then the [tag]. *)
Definition settings_children (i : Interface) : list element :=
  (if bool_decide (mode i = "layer3") && negb (bool_decide (_subnets i = []))
   then [Element "ip" [] None
           ((fun subnet => Element "entry" [("name", Some subnet)] None [])
              <$> _subnets i)]
   else [])
  ++ (if truthy (_tag i) then [Element "tag" [] (_tag i) []] else []).

Definition units_xpath (physical pmode : string) (i : Interface) : string :=
  XPATH_INTERFACES ++ "/" ++ type i ++ "/entry[@name='" ++ physical ++ "']/"
    ++ pmode ++ "/units/entry[@name='" ++ pystr (name i) ++ "']".

Definition generic_xpath (i : Interface) : string :=
  XPATH_INTERFACES ++ "/" ++ type i ++ "/entry[@name='" ++ pystr (name i) ++ "']".

Definition _xpath (i : Interface) : result (string * element) :=
  if decide (type i = "ethernet") then
    match parent i with
    | Some p =>
        Ok (units_xpath (pystr (name p)) (mode p) i,
            entry_elem (name i) (settings_children i))
    | None =>
        match name i with
        | None => Raise TypeError
        | Some n =>
            match Re.search_group re_subunit_group re_subunit_rest n with
            | Some physical =>
                Ok (units_xpath physical (mode i) i,
                    entry_elem (name i) (settings_children i))
            | None =>
                Ok (generic_xpath i,
                    entry_elem (name i)
                      [Element (mode i) [] None (settings_children i)])
            end
        end
    end
  else if decide (type i = "vlan") then
    Ok (XPATH_INTERFACES ++ "/" ++ type i ++ "/units/entry[@name='"
          ++ pystr (name i) ++ "']",
        entry_elem (name i) (settings_children i))
  else Raise (PanDeviceError ("Unknown interface type: " ++ type i)).

Definition zone_xpath (z : option string) : string :=
  XPATH_ZONE ++ "/entry[@name='" ++ pystr z ++ "']/network/layer3".
Definition zone_member_xpath (z : option string) (i : Interface) : string :=
  XPATH_ZONE ++ "/entry[@name='" ++ pystr z ++ "']/network/layer3/member[text()='"
    ++ pystr (name i) ++ "']".
Definition router_member_xpath (i : Interface) : string :=
  XPATH_DEFAULT_VROUTER_INTERFACES ++ "/member[text()='" ++ pystr (name i) ++ "']".
Definition member_element (i : Interface) : string :=
  "<member>" ++ pystr (name i) ++ "</member>".

Definition apply (i : Interface) : M unit :=
  match pan_device i with
  | None => mret tt
  | Some _ =>
      _ ← set_config_changed;
      xe ← lift (_xpath i);
      s ← lift (tostring xe.2);
      _ ← xapi i (xapi_edit xe.1 s);
      _ ← when (truthy (_zone i))
            (xapi i (xapi_set (zone_xpath (_zone i)) (member_element i)));
      when (truthy (router i))
        (xapi i (xapi_set XPATH_DEFAULT_VROUTER_INTERFACES (member_element i)))
  end.

Definition delete (i : Interface) : M unit :=
  match pan_device i with
  | None => mret tt
  | Some _ =>
      _ ← set_config_changed;
      _ ← when (truthy (router i))
            (xapi i (xapi_delete (router_member_xpath i)));
      _ ← when (truthy (_zone i))
            (xapi i (xapi_delete (zone_member_xpath (_zone i) i)));
      xe ← lift (_xpath i);
      xapi i (xapi_delete xe.1)
  end.

(** The property setters change the object and may talk to the device:
    they return the object as it is left, also when they raise. *)

(** [@tag.setter]; the argument is [None] or [str(value)]. *)
Definition tag_setter (value : option string) (i : Interface) : Interface :=
  with_tag value i.

(** [@subnets.setter] *)
Definition subnets_setter (value : subnets_arg) (i : Interface)
  : Interface * M unit :=
  let i' := with_subnets
              match value with
              | SubnetsNone => []
              | SubnetsList l => l
              | SubnetsOne s => [s]
              end i in
  (i', when (apply_changes i') (apply i')).

(** [@zone.setter] *)
Definition zone_setter (value : option string) (i : Interface)
  : Interface * M unit :=
  if decide (_zone i = value) then (i, mret tt)
  else
    let old_zone := _zone i in
    let i' := with_zone value i in
    (i',
     when (apply_changes i')
       (_ ← when (bool_decide (old_zone <> None))
              (xapi i' (xapi_delete (zone_member_xpath old_zone i')));
        when (bool_decide (_zone i' <> None))
          (xapi i' (xapi_set (zone_xpath (_zone i')) (member_element i'))))).

Definition is_up (i : Interface) : bool := bool_decide (state i = Some "up").

(** [Interface.__init__]; [tag] is [None] or the [str] of the value given.
    The [subnets] setter runs [apply] when [apply_changes] is set, before
    the name and the tag are normalized. *)
Definition __init__ (name_ : option string) (type_ mode_ : string)
    (tag_ zone_ : option string) (subnets_ : subnets_arg)
    (router_ : option string) (pan_device_ : option string)
    (apply_changes_ : bool) (parent_ : option Interface)
    (state_ : option string) : M Interface :=
  let self := mkInterface name_ type_ mode_ None zone_ router_ parent_ []
                apply_changes_ pan_device_ [] None in
  let self := tag_setter tag_ self in
  let '(self, applied) := subnets_setter subnets_ self in
  _ ← applied;
  let self := with_state state_ self in
  match name self with
  | None => lift (Raise TypeError)
  | Some n =>
      let self :=
        if bool_decide (tag_ <> None) && negb (Re.search re_dot_digits_end n)
        then with_name (Some (n ++ "." ++ pystr (_tag self))) self
        else self in
      if bool_decide (tag_ = None)
         && Re.search re_dot_digits_end (pystr (name self))
      then
        match Re.split "." (pystr (name self)) !! 1%nat with
        | Some t => mret (tag_setter (Some t) self)
        | None => lift (Raise IndexError)
        end
      else mret self
  end.

(** The membership calls of an interface: what [delete] removes before
    the interface, and what [apply] adds after it. *)
Definition membership_deletes (i : Interface) : list api_call :=
  (if truthy (router i) then [xapi_delete (router_member_xpath i)] else [])
  ++ (if truthy (_zone i) then [xapi_delete (zone_member_xpath (_zone i) i)] else []).

Definition membership_sets (i : Interface) : list api_call :=
  (if truthy (_zone i)
   then [xapi_set (zone_xpath (_zone i)) (member_element i)] else [])
  ++ (if truthy (router i)
      then [xapi_set XPATH_DEFAULT_VROUTER_INTERFACES (member_element i)] else []).


(** ** panorama.py: commit_all *)

(** [pan.commit.PanCommit] of the pan-python library, and
    [PanDevice._commit] of [base.py]. *)
Variable PanCommit : Type.
Variable PanCommit_cmd : PanCommit -> string.
Variable commit_result : Type.
Variable _commit :
  forall (sync sync_all commit_all exception : bool) (cmd : string),
    result commit_result.

(** The [cmd] argument: [None], a [PanCommit], an [Element], or a string
    that is passed on as it is. *)
Inductive cmd_arg : Type :=
  | CmdNone
  | CmdPanCommit (c : PanCommit)
  | CmdElement (e : element)
  | CmdStr (s : string).

(** The element [e] built when [cmd is None]. *)
Definition commit_all_element (devicegroup : option string)
    (serials : list string) : element :=
  let e := Element "commit-all" [] None [] in
  match devicegroup with
  | Some dgn =>
      let d := Element "devices" [] None
                 ((fun serial => Element "entry" [("name", Some serial)] None [])
                    <$> serials) in
      let dg_e := Element "entry" [("name", Some dgn)] None
                    (if bool_decide (serials = []) then [] else [d]) in
      let dg := Element "device-group" [] None [dg_e] in
      let sp := Element "shared-policy" [] None [dg] in
      append sp e
  | None => e
  end.

Definition commit_all (sync sync_all exception : bool)
    (devicegroup : option string) (serials : list string) (cmd : cmd_arg)
  : result commit_result :=
  cmd ← match cmd with
        | CmdNone => tostring (commit_all_element devicegroup serials)
        | CmdPanCommit c => Ok (PanCommit_cmd c)
        | CmdElement e => tostring e
        | CmdStr s => Ok s
        end;
  _commit sync sync_all true exception cmd.

(** ** panorama.py: the configuration tree *)

(** Modelled from the spec: the Device Record of section 3 (class
    [firewall.Firewall], which is not among these sources): keyed by serial
    and vsys, with the management address, version, high-availability peer,
    connection status and group-sync status as its status fields. *)
Record Firewall : Type := mkFirewall {
  serial : option string;
  vsys : option string;
  vsys_name : option string;
  management_ip : option string;
  version : option string;
  serial_ha_peer : option string;
  connected : option bool;
  shared_policy_synced : option bool;
}.

(** [self.FIREWALL_CLASS(serial=..., vsys=...)]: no other argument given. *)
Definition FIREWALL_CLASS (serial vsys : option string) : Firewall :=
  mkFirewall serial vsys None None None None None None.

(** A child in the tree.  A device-group is an object that is shared
    between the tree and the list [refresh_devices] returns, and changed in
    place: it is referred to by its address in the heap. *)
Inductive child : Type :=
  | ChildFirewall (fw : Firewall)
  | ChildDeviceGroup (addr : nat)
  | ChildOther (cls : string) (name : option string).

Record DeviceGroup : Type := mkDeviceGroup {
  dg_name : option string;
  dg_tag : option (list string);
  dg_children : list child;
}.

(** The Panorama object: its children, and the device-group objects. *)
Record Panorama : Type := mkPanorama {
  pan_children : list child;
  pan_heap : list DeviceGroup;
}.

Definition is_firewall (c : child) : bool :=
  match c with ChildFirewall _ => true | _ => false end.

(** Modelled from the spec: [PanObject.removeall(cls)] of [base.py] for
    [cls = Firewall]: the children of that kind are removed, the others
    stay (section 4.5, step 6: full replace of the device-record children,
    other children untouched). *)
Definition removeall_firewalls (cs : list child) : list child :=
  List.filter (fun c => negb (is_firewall c)) cs.

(** Modelled from the spec: [PanObject.extend(children)] and
    [PanObject.add(child)] of [base.py]: children is an ordered sequence,
    new children are attached at its end (section 3, section 4.1). *)
Definition extend (new cs : list child) : list child := cs ++ new.
Definition add (c : child) (cs : list child) : list child := cs ++ [c].

Definition dg_add (c : child) (dg : DeviceGroup) : DeviceGroup :=
  mkDeviceGroup (dg_name dg) (dg_tag dg) (add c (dg_children dg)).

(** Modelled from the spec: [self.find(name, DeviceGroup)] of [base.py]:
    the first child that is a device-group of that name (section 4.5, step
    6: a group of that name already exists in the live tree). *)
Definition find_devicegroup (name : option string) (p : Panorama) : option nat :=
  head (omap (fun c =>
                match c with
                | ChildDeviceGroup a =>
                    match pan_heap p !! a with
                    | Some dg => if decide (dg_name dg = name) then Some a else None
                    | None => None
                    end
                | _ => None
                end) (pan_children p)).

(** ** panorama.py: refresh_devices *)

(** Helpers of the package that are declared outside [panorama.py]. *)

(** [pandevice.yesno] *)
Variable yesno : option string -> result (option bool).
(** [pandevice.xml_combine(root, elements)]: the root after the merge. *)
Variable xml_combine : element -> element -> result element.
(** [Firewall.refreshall_from_xml(xml, refresh_children)] and
    [DeviceGroup.refreshall_from_xml(xml, refresh_children)] of [base.py] *)
Variable fw_refreshall_from_xml : option element -> bool -> result (list Firewall).
Variable dg_refreshall_from_xml : option element -> bool -> result (list DeviceGroup).
(** [fw.state.set_shared_policy_synced(status)]: the firewall afterwards. *)
Variable set_shared_policy_synced : option string -> Firewall -> result Firewall.
(** [self.id] *)
Variable self_id : string.
(** The remote views: [self.op(cmd)], [self.xapi.get(xpath)] and
    [self.xapi.show(xpath)], each the root of the response. *)
Variable op : string -> result element.
Variable xapi_get : string -> result element.
Variable xapi_show : string -> result element.

(** An item of the [devices] argument: a serial number, or an object with
    a [vsys] attribute whose [str] is its serial. *)
Inductive requested : Type :=
  | ReqSerial (s : string)
  | ReqFirewall (s : string) (v : option string).

(** [str(device)] *)
Definition req_str (d : requested) : string :=
  match d with ReqSerial s => s | ReqFirewall s _ => s end.

(** [device.vsys] *)
Definition req_vsys (d : requested) : result (option string) :=
  match d with
  | ReqSerial _ => Raise AttributeError
  | ReqFirewall _ v => Ok v
  end.

Definition not_found_error (only_connected : bool) (serial : string) : exn :=
  if only_connected
  then PanNotConnectedOnPanorama
         ("Can't find device with serial " ++ serial
          ++ " attached and connected to Panorama at " ++ self_id)
  else PanNotAttachedOnPanorama
         ("Can't find device with serial " ++ serial
          ++ " attached to Panorama at " ++ self_id).

Definition vsys_not_found_error (serial : string) (vsys : option string) : exn :=
  PanNotAttachedOnPanorama
    ("Can't find device with serial " ++ serial ++ " and vsys " ++ pystr vsys
     ++ " attached to Panorama at " ++ self_id).

(** [vsys != "shared" and vsys is not None] *)
Definition specific_vsys (vsys : option string) : bool :=
  bool_decide (vsys <> Some "shared") && bool_decide (vsys <> None).

Definition with_children (cs : list element) (e : element) : element :=
  Element (tag e) (attrib e) (text e) cs.

(** [update_path path f e] changes in place, by [f], the element that
    [e.find(path)] returns; [None] when [find] returns [None].
    [update_children] changes the first child that [upd] accepts. *)
Fixpoint update_children (upd : element -> option element) (cs : list element)
  : option (list element) :=
  match cs with
  | [] => None
  | c :: cs' =>
      match upd c with
      | Some c' => Some (c' :: cs')
      | None => cons c <$> update_children upd cs'
      end
  end.

Fixpoint update_path (path : list step) (f : element -> element) (e : element)
  : option element :=
  match path with
  | [] => Some (f e)
  | s :: path' =>
      (fun cs => with_children cs e) <$>
      update_children
        (fun c => if step_match s c then update_path path' f c else None)
        (children e)
  end.

(** [entry_copy = deepcopy(entry)], with its first [vsys] child replaced
    by an empty one at the end when a specific vsys is looked for. *)
Definition entry_copy (vsys : option string) (entry : element) : result element :=
  if specific_vsys vsys then
    match remove_first_tag "vsys" (children entry) with
    | Some cs => Ok (SubElement (with_children cs entry) "vsys" [] None)
    | None => Raise ValueError
    end
  else Ok entry.

(** The body of the loop over the requested devices (lines 262-294), on
    [filtered_devices_xml]. *)
Definition filter_device (only_connected : bool) (devices_xml : element)
    (filtered_devices_xml : element) (device : requested) : result element :=
  let serial := req_str device in
  match find [TagName "entry" serial] devices_xml with
  | None => Raise (not_found_error only_connected serial)
  | Some entry =>
      multi_vsys ← yesno (findtext [Tag "multi-vsys"] entry);
      match req_vsys device with
      | Raise _ => Ok filtered_devices_xml
      | Ok vsys =>
          filtered ←
            match find [TagName "entry" serial] filtered_devices_xml with
            | None => c ← entry_copy vsys entry; Ok (append c filtered_devices_xml)
            | Some _ => Ok filtered_devices_xml
            end;
          if specific_vsys vsys then
            match find [Tag "vsys"; TagName "entry" (pystr vsys)] entry with
            | None => Raise (vsys_not_found_error serial vsys)
            | Some vsys_entry =>
                match update_path [TagName "entry" serial; Tag "vsys"]
                        (append vsys_entry) filtered with
                | Some filtered' => Ok filtered'
                | None => Raise AttributeError
                end
            end
          else Ok filtered
      end
  end.

Fixpoint filter_devices (only_connected : bool) (devices_xml : element)
    (filtered_devices_xml : element) (devices : list requested) : result element :=
  match devices with
  | [] => Ok filtered_devices_xml
  | device :: devices' =>
      filtered ← filter_device only_connected devices_xml filtered_devices_xml device;
      filter_devices only_connected devices_xml filtered devices'
  end.

(** Lines 297-308: each vsys of each entry becomes a device entry. *)
Definition new_vsys_device (entry vsys_entry : element) : element :=
  let serial := findtext [Tag "serial"] entry in
  let e := set "name" serial entry in
  let e := SubElement e "vsys_id" [] (get "name" vsys_entry) in
  SubElement e "vsys_name" [] (findtext [Tag "display-name"] vsys_entry).

Definition expand_entry (entry : element) : list element :=
  new_vsys_device entry <$> findall [Tag "vsys"; Tag "entry"] entry.

Definition expand_vsys_xml (original_devices_xml : element) : element :=
  Element "devices" [] None (flat_map expand_entry (children original_devices_xml)).

(** Lines 334-341: the operational status of each member of each
    device-group is merged into its configuration entry. *)
Definition combine_member (devicegroup_opxml : option element) (fw_entry : element)
  : result element :=
  match devicegroup_opxml with
  | None => Raise AttributeError
  | Some opxml =>
      match find [Tag "entry"; Tag "devices";
                  TagName "entry" (pystr (get "name" fw_entry))] opxml with
      | Some fw_entry_op => xml_combine fw_entry fw_entry_op
      | None => Ok fw_entry
      end
  end.

Fixpoint replace_first_tag (t : string) (e' : element) (cs : list element)
  : list element :=
  match cs with
  | [] => []
  | c :: cs' =>
      if decide (tag c = t) then e' :: cs' else c :: replace_first_tag t e' cs'
  end.

Definition combine_group (devicegroup_opxml : option element) (dg_entry : element)
  : result element :=
  match find [Tag "devices"] dg_entry with
  | None => Ok dg_entry
  | Some devices =>
      members ← mapM (combine_member devicegroup_opxml) (children devices);
      Ok (with_children
            (replace_first_tag "devices" (with_children members devices)
               (children dg_entry))
            dg_entry)
  end.

Definition combine_views (devicegroup_configxml devicegroup_opxml : option element)
  : result (option element) :=
  match devicegroup_configxml with
  | None => Ok None
  | Some cfg =>
      groups ← mapM (combine_group devicegroup_opxml) (children cfg);
      Ok (Some (with_children groups cfg))
  end.

(** Lines 349-361: the serials a device-group declares, and the vsys it
    declares for one of them. *)
Definition dg_serials (cfg : element) (dg : DeviceGroup) : list (option string) :=
  get "name" <$>
  findall [TagName "entry" (pystr (dg_name dg)); Tag "devices"; Tag "entry"] cfg.

Definition member_path (dg : DeviceGroup) (dg_serial : option string) : list step :=
  [TagName "entry" (pystr (dg_name dg)); Tag "devices";
   TagName "entry" (pystr dg_serial)].

Definition declared_vsys (cfg : element) (dg : DeviceGroup)
    (dg_serial : option string) : list (option string) :=
  get "name" <$> findall (member_path dg dg_serial ++ [Tag "vsys"; Tag "entry"]) cfg.

Definition all_dg_vsys (cfg : element) (dg : DeviceGroup)
    (dg_serial : option string) : list (option string) :=
  let declared := declared_vsys cfg dg dg_serial in
  if bool_decide (declared = []) then [Some "vsys1"] else declared.

(** Line 353: [devices and dg_serial not in [str(f) for f in devices]] *)
Definition serial_skipped (devices : list requested) (dg_serial : option string)
  : bool :=
  negb (bool_decide (devices = []))
  && negb (bool_decide (dg_serial ∈ (Some ∘ req_str) <$> devices)).

(** Lines 364-373: a specific vsys was requested, and this is not it. *)
Definition vsys_skipped (devices : list requested) (dg_vsys : option string)
  : bool :=
  if bool_decide (devices = []) then false
  else
    match mapM req_vsys devices with
    | Raise _ => false
    | Ok requested_vsys =>
        bool_decide (Some "shared" ∉ requested_vsys)
        && bool_decide (None ∉ requested_vsys)
        && bool_decide (dg_vsys ∉ requested_vsys)
    end.

(** [next((x for x in firewall_instances if x.serial == dg_serial and
    x.vsys == dg_vsys), None)], with the position of the object found. *)
Definition fw_matches (dg_serial dg_vsys : option string) (x : Firewall) : bool :=
  bool_decide (serial x = dg_serial) && bool_decide (vsys x = dg_vsys).

Fixpoint find_firewall (dg_serial dg_vsys : option string)
    (firewall_instances : list Firewall) : option (nat * Firewall) :=
  match firewall_instances with
  | [] => None
  | x :: l =>
      if fw_matches dg_serial dg_vsys x then Some (0, x)
      else prod_map S id <$> find_firewall dg_serial dg_vsys l
  end.

(** Lines 385-387 *)
Definition member_status (fw_entry : element) (dg_vsys : option string)
  : option string :=
  match findtext [Tag "shared-policy-status"] fw_entry with
  | Some s => Some s
  | None =>
      findtext [Tag "vsys"; TagName "entry" (pystr dg_vsys);
                Tag "shared-policy-status"] fw_entry
  end.

(** Lines 374-388: one (serial, vsys) membership of the device-group [dg],
    on the pair of [firewall_instances] and [dg]. *)
Definition attach_member (only_connected : bool) (fw_entry : option element)
    (dg_serial dg_vsys : option string) (st : list Firewall * DeviceGroup)
  : result (list Firewall * DeviceGroup) :=
  let '(firewall_instances, dg) := st in
  match find_firewall dg_serial dg_vsys firewall_instances with
  | None =>
      if only_connected then Ok st
      else Ok (firewall_instances,
               dg_add (ChildFirewall (FIREWALL_CLASS dg_serial dg_vsys)) dg)
  | Some (i, fw) =>
      match fw_entry with
      | None => Raise AttributeError
      | Some fw_entry =>
          fw' ← set_shared_policy_synced (member_status fw_entry dg_vsys) fw;
          Ok (base.delete i firewall_instances, dg_add (ChildFirewall fw') dg)
      end
  end.

Fixpoint attach_vsys (devices : list requested) (only_connected : bool)
    (fw_entry : option element) (dg_serial : option string)
    (vsys_list : list (option string)) (st : list Firewall * DeviceGroup)
  : result (list Firewall * DeviceGroup) :=
  match vsys_list with
  | [] => Ok st
  | dg_vsys :: vsys_list' =>
      st' ← (if vsys_skipped devices dg_vsys then Ok st
             else attach_member only_connected fw_entry dg_serial dg_vsys st);
      attach_vsys devices only_connected fw_entry dg_serial vsys_list' st'
  end.

(** Lines 351-388: one serial of the device-group. *)
Definition attach_serial (devices : list requested) (only_connected : bool)
    (cfg : element) (dg_serial : option string) (st : list Firewall * DeviceGroup)
  : result (list Firewall * DeviceGroup) :=
  if serial_skipped devices dg_serial then Ok st
  else
    attach_vsys devices only_connected
      (find (member_path st.2 dg_serial) cfg) dg_serial
      (all_dg_vsys cfg st.2 dg_serial) st.

Fixpoint attach_serials (devices : list requested) (only_connected : bool)
    (cfg : element) (serials : list (option string))
    (st : list Firewall * DeviceGroup)
  : result (list Firewall * DeviceGroup) :=
  match serials with
  | [] => Ok st
  | dg_serial :: serials' =>
      st' ← attach_serial devices only_connected cfg dg_serial st;
      attach_serials devices only_connected cfg serials' st'
  end.

(** Lines 348-388: all device-groups, in order; the firewalls left are the
    ungrouped ones. *)
Fixpoint attach_groups (devices : list requested) (only_connected : bool)
    (cfg : option element) (devicegroup_instances : list DeviceGroup)
    (firewall_instances : list Firewall)
  : result (list Firewall * list DeviceGroup) :=
  match devicegroup_instances with
  | [] => Ok (firewall_instances, [])
  | dg :: dgs =>
      match cfg with
      | None => Raise AttributeError
      | Some cfg' =>
          st ← attach_serials devices only_connected cfg' (dg_serials cfg' dg)
                 (firewall_instances, dg);
          r ← attach_groups devices only_connected cfg dgs st.1;
          Ok (r.1, st.2 :: r.2)
      end
  end.

Definition set_children (cs : list child) (dg : DeviceGroup) : DeviceGroup :=
  mkDeviceGroup (dg_name dg) (dg_tag dg) cs.

(** Lines 391-399: one reconciled device-group, the object at address [a].
    The device-group found is changed in place, first by [removeall], then
    by [extend] with the children the reconciled device-group has then. *)
Definition add_devicegroup (self : Panorama) (a : nat) : Panorama :=
  match pan_heap self !! a with
  | None => self
  | Some dg =>
      match find_devicegroup (dg_name dg) self with
      | Some found_dg =>
          let heap :=
            alter (fun g => set_children (removeall_firewalls (dg_children g)) g)
              found_dg (pan_heap self) in
          let children := from_option dg_children [] (heap !! a) in
          mkPanorama (pan_children self)
            (alter (fun g => set_children (extend children (dg_children g)) g)
               found_dg heap)
      | None => mkPanorama (add (ChildDeviceGroup a) (pan_children self)) (pan_heap self)
      end
  end.

(** Lines 317-318 and 401-402 *)
Definition replace_firewalls (firewall_instances : list Firewall) (self : Panorama)
  : Panorama :=
  mkPanorama
    (extend (ChildFirewall <$> firewall_instances)
       (removeall_firewalls (pan_children self)))
    (pan_heap self).

(** Lines 390-402 *)
Definition add_to_tree (firewall_instances : list Firewall) (addrs : list nat)
    (self : Panorama) : Panorama :=
  replace_firewalls firewall_instances (fold_left add_devicegroup addrs self).

Definition DEVICE_GROUP_XPATH : string :=
  "/config/devices/entry[@name='localhost.localdomain']/device-group".

(** Lines 259-295: the operational view, limited to the devices asked for. *)
Definition requested_devices_xml (devices : list requested) (only_connected : bool)
    (devices_xml : option element) : result (option element) :=
  if bool_decide (devices = []) then Ok devices_xml
  else
    match devices_xml with
    | None => Raise AttributeError
    | Some x =>
        Some <$> filter_devices only_connected x (Element "devices" [] None []) devices
    end.

(** Lines 298-308 *)
Definition expanded_devices_xml (expand_vsys : bool) (devices_xml : option element)
  : result (option element) :=
  if expand_vsys then
    match devices_xml with
    | None => Raise TypeError
    | Some original_devices_xml => Ok (Some (expand_vsys_xml original_devices_xml))
    end
  else Ok devices_xml.

(** [refresh_devices]: the object afterwards and the list returned.  The
    [devices] argument is the iterable given, which may hold [None]. *)
Definition refresh_devices (devices : list (option requested))
    (only_connected expand_vsys include_device_groups add running_config : bool)
    (self : Panorama) : result (Panorama * list child) :=
  let devices := omap id devices in
  let cmd := if only_connected then "show devices connected"
             else "show devices all" in
  devices_xml ← op cmd;
  let devices_xml := find [Tag "result"; Tag "devices"] devices_xml in
  devices_xml ← requested_devices_xml devices only_connected devices_xml;
  devices_xml ← expanded_devices_xml expand_vsys devices_xml;
  firewall_instances ← fw_refreshall_from_xml devices_xml (negb expand_vsys);
  if negb include_device_groups then
    Ok (if add then replace_firewalls firewall_instances self else self,
        ChildFirewall <$> firewall_instances)
  else
    devicegroup_configxml ←
      (if running_config then xapi_show else xapi_get) DEVICE_GROUP_XPATH;
    let devicegroup_configxml :=
      find [Tag "result"; Tag "device-group"] devicegroup_configxml in
    devicegroup_opxml ← op "show devicegroups";
    let devicegroup_opxml :=
      find [Tag "result"; Tag "devicegroups"] devicegroup_opxml in
    devicegroup_configxml ← combine_views devicegroup_configxml devicegroup_opxml;
    devicegroup_instances ← dg_refreshall_from_xml devicegroup_configxml false;
    r ← attach_groups devices only_connected devicegroup_configxml
          devicegroup_instances firewall_instances;
    let addrs := seq (length (pan_heap self)) (length r.2) in
    let self := mkPanorama (pan_children self) (pan_heap self ++ r.2)%list in
    Ok (if add then add_to_tree r.1 addrs self else self,
        ((ChildFirewall <$> r.1) ++ (ChildDeviceGroup <$> addrs))%list).

(** ** The device records

    Modelled from the spec: what [Firewall.refreshall_from_xml] of
    [base.py], which is not among these sources, reads from a [devices]
    element when it is called with [refresh_children] false.  A device
    record is keyed by serial and vsys id (section 3), and each record of
    a vsys carries the display name of the vsys (section 4.5, step 2): one
    record is read from each entry, in order; its serial is the name of
    the entry, its vsys id the text of the [vsys_id] of the entry, and its
    vsys name the text of the [vsys_name] of the entry, which are the
    places where lines 304-307 put them.  The children of a record are
    not read. *)
Definition device_record_of (entry : element) (r : Firewall) : Prop :=
  serial r = get "name" entry
  /\ (forall v, findtext [Tag "vsys_id"] entry = Some v -> vsys r = Some v)
  /\ (forall n, findtext [Tag "vsys_name"] entry = Some n -> vsys_name r = Some n).

Definition reads_device_records : Prop :=
  forall xml : element,
    exists records,
      fw_refreshall_from_xml (Some xml) false = Ok records
      /\ Forall2 device_record_of (children xml) records.

(** ** panorama.py: the xpaths of the shared and device-group scopes *)

(** [DeviceGroup.xpath_vsys] *)
Definition DeviceGroup_xpath_vsys (dg : DeviceGroup) : string :=
  if bool_decide (dg_name dg = Some "shared") || bool_decide (dg_name dg = None)
  then "/config/shared"
  else "/config/devices/entry[@name='localhost.localdomain']/device-group/entry[@name='"
         ++ pystr (dg_name dg) ++ "']".

(** [Panorama.xpath_vsys] and [Panorama.xpath_panorama] *)
Definition Panorama_xpath_vsys : string := "/config/shared".
Definition Panorama_xpath_panorama : string := "/config/panorama".

(** ** panorama.py: refresh_devices, the membership loop *)

(** What one run of the membership loop does to the pair of the firewall
    list and a device-group: firewalls are only taken out of the list, the
    device-group keeps its name, its tag and its children, and gets
    firewalls at the end, at least one for each firewall taken out, and
    exactly one when only connected devices are looked at. *)
Definition attached (only_connected : bool)
    (st st' : list Firewall * DeviceGroup) : Prop :=
  st'.1 `sublist_of` st.1
  /\ dg_name st'.2 = dg_name st.2 /\ dg_tag st'.2 = dg_tag st.2
  /\ exists added,
       dg_children st'.2 = (dg_children st.2 ++ (ChildFirewall <$> added))%list
       /\ length st.1 <= length st'.1 + length added
       /\ (only_connected = true -> length st.1 = length st'.1 + length added).

(** Lines 349-373: the memberships the loop over a device-group looks at,
    in order: the pairs of a declared serial that is not passed over and
    of one of its vsys that is not passed over. *)
Definition memberships (devices : list requested) (cfg : element)
    (dg : DeviceGroup) : list (option string * option string) :=
  flat_map
    (fun dg_serial =>
       if serial_skipped devices dg_serial then []
       else (fun dg_vsys => (dg_serial, dg_vsys)) <$>
            List.filter (fun dg_vsys => negb (vsys_skipped devices dg_vsys))
              (all_dg_vsys cfg dg dg_serial))
    (dg_serials cfg dg).

(** Lines 374-388: the child a membership gives a device-group: a new
    firewall of that serial and vsys, unless only connected devices are
    looked at, or one of the firewalls built, of that serial and vsys,
    after its policy status was set. *)
Definition member_child (only_connected : bool) (firewall_instances : list Firewall)
    (m : option string * option string) (fw' : Firewall) : Prop :=
  (only_connected = false /\ fw' = FIREWALL_CLASS m.1 m.2)
  \/ exists fw status,
       fw ∈ firewall_instances /\ serial fw = m.1 /\ vsys fw = m.2
       /\ set_shared_policy_synced status fw = Ok fw'.

(** ** Running the embedding

    Simple versions of the helpers that are declared outside the two
    files, to evaluate the embedding on concrete inputs.  The properties
    below are proved for every choice of helpers. *)

Definition yesno_of (value : option string) : result (option bool) :=
  match value with
  | None => Ok None
  | Some s =>
      if decide (s = "yes") then Ok (Some true)
      else if decide (s = "no") then Ok (Some false)
      else Raise KeyError
  end.

(** Modelled from the spec: [pandevice.xml_combine] of the package, which
    is not among these sources: the XML-combine helper (section 9) that
    joins the operational view of a member into its configuration entry
    (section 4.5, step 3; section 3, merged remote data).  Children of
    [elements] are merged into [root] by tag: a child with a new tag is
    appended, a child with a tag already there is merged into the first
    element of that tag. *)
Fixpoint xml_combine_into (elements root : element) {struct elements} : element :=
  match elements with
  | Element _ _ _ cs =>
      (fix merge (cs : list element) (root : element) {struct cs} : element :=
         match cs with
         | [] => root
         | c :: cs' =>
             merge cs'
               match find [Tag (tag c)] root with
               | None => append c root
               | Some found =>
                   with_children
                     (replace_first_tag (tag c) (xml_combine_into c found)
                        (children root))
                     root
               end
         end) cs root
  end.

Definition xml_combine_of (root elements : element) : result element :=
  Ok (xml_combine_into elements root).

Definition firewall_of_entry (e : element) : Firewall :=
  mkFirewall (get "name" e)
    (match findtext [Tag "vsys_id"] e with
     | Some v => Some v
     | None => Some "vsys1"
     end)
    (findtext [Tag "vsys_name"] e)
    (findtext [Tag "ip-address"] e)
    (findtext [Tag "sw-version"] e)
    (findtext [Tag "ha"; Tag "state"; Tag "peer"; Tag "serial"] e)
    (match findtext [Tag "connected"] e with
     | Some s => Some (bool_decide (s = "yes"))
     | None => None
     end)
    None.

Definition fw_refreshall_of (xml : option element) (refresh_children : bool)
  : result (list Firewall) :=
  Ok (match xml with
      | Some x => firewall_of_entry <$> children x
      | None => []
      end).

Definition dg_refreshall_of (xml : option element) (refresh_children : bool)
  : result (list DeviceGroup) :=
  Ok (match xml with
      | Some x => (fun e => mkDeviceGroup (get "name" e) None []) <$> children x
      | None => []
      end).

Definition set_shared_policy_synced_of (sync_status : option string) (fw : Firewall)
  : result Firewall :=
  let with_synced b :=
    mkFirewall (serial fw) (vsys fw) (vsys_name fw) (management_ip fw)
      (version fw) (serial_ha_peer fw) (connected fw) b in
  match sync_status with
  | None => Ok (with_synced None)
  | Some s =>
      if decide (s = "In Sync") then Ok (with_synced (Some true))
      else if decide (s = "Out of Sync") then Ok (with_synced (Some false))
      else if decide (s = "") then Ok (with_synced None)
      else Raise (PanDeviceError ("Unknown shared policy status: " ++ s))
  end.

Definition xml_entry (n : string) (cs : list element) : element :=
  Element "entry" [("name", Some n)] None cs.
Definition xml_node (t : string) (cs : list element) : element :=
  Element t [] None cs.
Definition xml_leaf (t x : string) : element :=
  Element t [] (Some x) [].

(** A Panorama that manages the firewall [S1], which has the two vsys
    [vsys1] (in sync) and [vsys2], and declares the device-group [DG1]
    with the member [S1], [vsys1]. *)
Definition sample_devices : element :=
  xml_node "devices"
    [xml_entry "S1"
       [xml_leaf "serial" "S1"; xml_leaf "multi-vsys" "yes";
        xml_leaf "connected" "yes";
        xml_node "vsys"
          [xml_entry "vsys1" [xml_leaf "display-name" "first"];
           xml_entry "vsys2" [xml_leaf "display-name" "second"]]]].

Definition sample_devicegroup_config : element :=
  xml_node "device-group"
    [xml_entry "DG1"
       [xml_node "devices" [xml_entry "S1" [xml_node "vsys" [xml_entry "vsys1" []]]]]].

Definition sample_devicegroups : element :=
  xml_node "devicegroups"
    [xml_entry "DG1"
       [xml_node "devices"
          [xml_entry "S1"
             [xml_node "vsys"
                [xml_entry "vsys1" [xml_leaf "shared-policy-status" "In Sync"]]]]]].

Definition response (result : element) : element :=
  Element "response" [("status", Some "success")] None [xml_node "result" [result]].

Definition sample_op (cmd : string) : result element :=
  if decide (cmd = "show devicegroups") then Ok (response sample_devicegroups)
  else Ok (response sample_devices).

Definition sample_get (xpath : string) : result element :=
  Ok (response sample_devicegroup_config).

(** The tree before: an administrator, a stale firewall, and the
    device-group [DG1] with a stale firewall and an address object. *)
Definition sample_panorama : Panorama :=
  mkPanorama
    [ChildOther "device.Administrator" (Some "admin");
     ChildFirewall (FIREWALL_CLASS (Some "OLD") (Some "vsys1"));
     ChildDeviceGroup 0]
    [mkDeviceGroup (Some "DG1") None
       [ChildFirewall (FIREWALL_CLASS (Some "OLD2") (Some "vsys1"));
        ChildOther "objects.AddressObject" (Some "web")]].

(** A serialization in the manner of [ET.tostring], without escaping. *)
Fixpoint serialize (e : element) : string :=
  match e with
  | Element t a x cs =>
      "<" ++ t
      ++ String.concat ""
           ((fun kv => " " ++ kv.1 ++ "='" ++ pystr kv.2 ++ "'") <$> a)
      ++ ">" ++ default "" x
      ++ String.concat "" (List.map serialize cs)
      ++ "</" ++ t ++ ">"
  end.

Fixpoint attributes_are_strings (e : element) : bool :=
  match e with
  | Element _ a _ cs =>
      forallb (fun kv => bool_decide (kv.2 <> None)) a
      && forallb attributes_are_strings cs
  end.

Definition tostring_of (e : element) : result string :=
  if attributes_are_strings e then Ok (serialize e) else Raise TypeError.

Definition no_fault (issued : list api_call) : option exn := None.

Definition no_device : PanDevice := mkPanDevice false [].

Definition sample_subinterface : Interface :=
  mkInterface (Some "ethernet1/3.20") "ethernet" "layer3" (Some "20") None
    (Some "default") None [] false None [] None.

Definition sample_entry : element :=
  xml_entry "S1"
    [xml_leaf "serial" "S1";
     xml_node "vsys"
       [xml_entry "vsys1" [xml_leaf "display-name" "first"];
        xml_entry "vsys2" [xml_leaf "display-name" "second"]]].

(** A device-group whose member declares no vsys. *)
Definition sample_single_context_config : element :=
  xml_node "device-group"
    [xml_entry "DG2" [xml_node "devices" [xml_entry "S3" []]]].

(** The sample tree with a reconciled [DG1] at address 1. *)
Definition sample_reconciled : Panorama :=
  mkPanorama (pan_children sample_panorama)
    (pan_heap sample_panorama ++
       [mkDeviceGroup (Some "DG1") None
          [ChildFirewall (FIREWALL_CLASS (Some "S1") (Some "vsys1"))]]).

(** A status of the device-groups that lists two vsys for the member [S3]
    of [DG2]. *)
Definition sample_multi_vsys_status : element :=
  xml_node "devicegroups"
    [xml_entry "DG2"
       [xml_node "devices"
          [xml_entry "S3"
             [xml_node "vsys" [xml_entry "vsys2" []; xml_entry "vsys3" []]]]]].

(** An interface of a type that has no xpath, and the interface
    [ethernet1/3] in the zone [trust], both on a device. *)
Definition sample_tunnel : Interface :=
  mkInterface (Some "tunnel.1") "tunnel" "layer3" None None
    (Some "default") None [] false (Some "fw") [] None.

Definition sample_ethernet : Interface :=
  mkInterface (Some "ethernet1/3") "ethernet" "layer3" None (Some "trust")
    (Some "default") None [] false (Some "fw") [] None.

(** * Properties *)

(** Decide the comparisons of literal tags and names in a goal. *)
Ltac decide_literals :=
  repeat first
    [ rewrite bool_decide_eq_true_2 by done
    | rewrite bool_decide_eq_false_2 by done
    | rewrite decide_True by done
    | rewrite decide_False by done
    | progress cbn ].

(** ** Strings and patterns *)

Lemma append_cons (c : ascii) (a b : string) : String c a ++ b = String c (a ++ b).
Proof. reflexivity. Qed.

Lemma append_nil (b : string) : "" ++ b = b.
Proof. reflexivity. Qed.

Lemma length_append (a b : string) :
  String.length (a ++ b) = String.length a + String.length b.
Proof.
  induction a as [|c a IH]; [done|]. rewrite append_cons. cbn. by rewrite IH.
Qed.

Lemma take_append (a b : string) : Re.take (String.length a) (a ++ b) = a.
Proof.
  induction a as [|c a IH]; [by destruct b|]. rewrite append_cons. cbn.
  by rewrite IH.
Qed.

Lemma drop_append (a b : string) : Re.drop (String.length a) (a ++ b) = b.
Proof. induction a as [|c a IH]; [by destruct b|]. by rewrite append_cons. Qed.

Lemma digit_run_all (c : ascii) (s : string) :
  Re.digit_run (String c s) = String.length (String c s) ->
  Re.is_digit c = true /\ Re.digit_run s = String.length s.
Proof. cbn. destruct (Re.is_digit c); [|done]. by intros [= H]. Qed.

Lemma digit_run_append_dot (a b : string) :
  Re.digit_run a = String.length a ->
  Re.digit_run (a ++ String "." b) = String.length a.
Proof.
  induction a as [|c a IH]; [done|]. intros [Hc Ha]%digit_run_all.
  rewrite append_cons. cbn. rewrite Hc. by rewrite IH.
Qed.

Lemma downto_top (lo hi : nat) : lo <= hi -> exists l, Re.downto lo hi = hi :: l.
Proof.
  intros H. destruct hi as [|h]; cbn.
  - rewrite decide_False by lia. by eexists.
  - rewrite decide_False by lia. by eexists.
Qed.

Lemma strip_prefix_append (p s : string) : Re.strip_prefix p (p ++ s) = Some s.
Proof.
  induction p as [|c p IH]; [by destruct s|].
  rewrite append_cons. cbn. by rewrite decide_True.
Qed.

Lemma rmatch_seq (r1 r2 : Re.regex) (s : string) :
  Re.rmatch (Re.Seq r1 r2) s = flat_map (Re.rmatch r2) (Re.rmatch r1 s).
Proof. reflexivity. Qed.

Lemma rmatch_lit (p s : string) : Re.rmatch (Re.Lit p) (p ++ s) = [s].
Proof. cbn. by rewrite strip_prefix_append. Qed.

Lemma rmatch_digit (c : ascii) (s : string) :
  Re.is_digit c = true -> Re.rmatch (Re.Digits 1 (Some 1)) (String c s) = [s].
Proof.
  intros Hc. cbn. rewrite Hc.
  replace (S (Re.digit_run s) `min` 1) with 1 by lia. cbn.
  by rewrite !decide_False by lia.
Qed.

Lemma rmatch_digits_dot (hi : nat) (a b : string) :
  Re.digit_run a = String.length a -> String.length a <= hi ->
  Re.rmatch (Re.Digits 1 (Some hi)) (a ++ String "." b)
  = (fun k => Re.drop k (a ++ String "." b)) <$> Re.downto 1 (String.length a).
Proof.
  intros Ha Hlen. cbn. rewrite digit_run_append_dot by done.
  by rewrite Nat.min_l by lia.
Qed.

(** A name of the form [ethernet<slot>/<port>.<unit>], with a slot of one
    digit, a port of one to three digits and a unit that starts with a
    digit, matches the sub-unit pattern, and the group is the name of the
    physical interface, [ethernet<slot>/<port>]. *)
Lemma search_subunit_shape (slot : ascii) (port unit : string) :
  Re.is_digit slot = true ->
  Re.digit_run port = String.length port ->
  1 <= String.length port <= 3 ->
  1 <= Re.digit_run unit ->
  Re.search_group re_subunit_group re_subunit_rest
    ("ethernet" ++ String slot ("/" ++ port ++ "." ++ unit))
  = Some ("ethernet" ++ String slot ("/" ++ port)).
Proof.
  intros Hslot Hport Hplen Hulen.
  assert (Re.rmatch re_subunit_rest ("." ++ unit) <> []) as Hrest.
  { unfold re_subunit_rest. rewrite rmatch_seq, rmatch_lit.
    cbn [flat_map]. rewrite app_nil_r. cbn.
    destruct (downto_top 1 (Re.digit_run unit `min` 4)) as [l ->]; [lia|done]. }
  unfold Re.search_group.
  rewrite (append_cons "e"). cbn [Re.suffixes omap list_omap].
  rewrite <- (append_cons "e").
  assert (Re.group_at re_subunit_group re_subunit_rest
            ("ethernet" ++ String slot ("/" ++ port ++ "." ++ unit))
          = Some ("ethernet" ++ String slot ("/" ++ port))) as ->; [|done].
  unfold Re.group_at.
  assert (Re.rmatch re_subunit_group
            ("ethernet" ++ String slot ("/" ++ port ++ "." ++ unit))
          = (fun k => Re.drop k (port ++ "." ++ unit))
              <$> Re.downto 1 (String.length port)) as ->.
  { unfold re_subunit_group. rewrite rmatch_seq, rmatch_lit.
    cbn [flat_map]. rewrite app_nil_r, rmatch_seq, rmatch_digit by done.
    cbn [flat_map]. rewrite app_nil_r, rmatch_seq, rmatch_lit.
    cbn [flat_map]. rewrite app_nil_r.
    by apply rmatch_digits_dot; [|lia]. }
  destruct (downto_top 1 (String.length port)) as [l ->]; [lia|].
  rewrite fmap_cons, drop_append, filter_cons_True by done.
  cbn [head fmap option_fmap option_map]. f_equal.
  change ("ethernet" ++ String slot ("/" ++ port ++ "." ++ unit))
    with (("ethernet" ++ String slot ("/" ++ port)) ++ ("." ++ unit)).
  rewrite length_append, Nat.add_sub. apply take_append.
Qed.

Lemma split_nonempty (sep : ascii) (s : string) : Re.split sep s <> [].
Proof.
  destruct s as [|c s]; cbn; [done|].
  destruct (decide (c = sep)); [done|].
  by destruct (Re.split sep s).
Qed.

Lemma split_single (sep : ascii) (s b : string) : Re.split sep s = [b] -> s = b.
Proof.
  revert b. induction s as [|c s IH]; intros b; cbn.
  - by intros [= <-].
  - destruct (decide (c = sep)).
    + intros [= _ Hs]. by apply split_nonempty in Hs.
    + destruct (Re.split sep s) as [|w ws] eqn:Hw; [by apply split_nonempty in Hw|].
      intros [= <- ->]. f_equal. by apply IH.
Qed.

Lemma split_join (s a b : string) :
  Re.split "." s = [a; b] -> s = a ++ "." ++ b.
Proof.
  revert a. induction s as [|c s IH]; intros a; cbn; [done|].
  destruct (decide (c = "."%char)) as [->|Hc].
  - intros [= <- Hs]. apply split_single in Hs as ->. reflexivity.
  - destruct (Re.split "." s) as [|w ws] eqn:Hw; [by apply split_nonempty in Hw|].
    intros [= <- ->]. change (String c s = String c (w ++ "." ++ b)).
    f_equal. by apply IH.
Qed.

(** ** network.py *)

(** C4. For an interface of type ethernet, [_xpath] tries the sub-unit
    forms before the generic one: with a parent, the xpath is the entry of
    the interface under the units of the parent; without a parent and with a
    name in which the sub-unit pattern is found, it is the entry under the
    units of the physical interface the pattern names; otherwise it is the
    top-level entry of the interface.  In particular a name
    [ethernet<slot>/<port>.<unit>] (a slot of one digit, a port of one to
    three digits) resolves under the units of [ethernet<slot>/<port>]. *)
Theorem C4_ethernet_xpath (i : Interface) :
  type i = "ethernet" ->
  match parent i with
  | Some p =>
      fst <$> _xpath i =
      Ok (XPATH_INTERFACES ++ "/ethernet/entry[@name='" ++ pystr (name p) ++ "']/"
            ++ mode p ++ "/units/entry[@name='" ++ pystr (name i) ++ "']")
  | None =>
      match name i with
      | Some n =>
          match Re.search_group re_subunit_group re_subunit_rest n with
          | Some physical =>
              fst <$> _xpath i =
              Ok (XPATH_INTERFACES ++ "/ethernet/entry[@name='" ++ physical ++ "']/"
                    ++ mode i ++ "/units/entry[@name='" ++ n ++ "']")
          | None =>
              fst <$> _xpath i =
              Ok (XPATH_INTERFACES ++ "/ethernet/entry[@name='" ++ n ++ "']")
          end
      | None => _xpath i = Raise TypeError
      end
  end
  /\ forall (slot : ascii) (port unit : string),
       parent i = None ->
       name i = Some ("ethernet" ++ String slot ("/" ++ port ++ "." ++ unit)) ->
       Re.is_digit slot = true ->
       Re.digit_run port = String.length port ->
       1 <= String.length port <= 3 ->
       1 <= Re.digit_run unit ->
       fst <$> _xpath i =
       Ok (XPATH_INTERFACES ++ "/ethernet/entry[@name='"
             ++ ("ethernet" ++ String slot ("/" ++ port)) ++ "']/" ++ mode i
             ++ "/units/entry[@name='"
             ++ ("ethernet" ++ String slot ("/" ++ port ++ "." ++ unit)) ++ "']").
Proof.
  intros Ht.
  assert (match parent i with
          | Some p =>
              fst <$> _xpath i =
              Ok (units_xpath (pystr (name p)) (mode p) i)
          | None =>
              match name i with
              | Some n =>
                  match Re.search_group re_subunit_group re_subunit_rest n with
                  | Some physical =>
                      fst <$> _xpath i = Ok (units_xpath physical (mode i) i)
                  | None => fst <$> _xpath i = Ok (generic_xpath i)
                  end
              | None => _xpath i = Raise TypeError
              end
          end) as H.
  { unfold _xpath. rewrite decide_True by done.
    destruct (parent i) as [p|]; [done|].
    destruct (name i) as [n|]; [|done].
    by destruct (Re.search_group _ _ n). }
  split.
  - unfold units_xpath, generic_xpath in H. rewrite Ht in H.
    destruct (parent i) as [p|]; [done|].
    destruct (name i) as [n|]; [|done].
    by destruct (Re.search_group _ _ n).
  - intros slot port unit Hp Hn Hslot Hport Hplen Hunit.
    rewrite Hp, Hn, search_subunit_shape in H by done.
    rewrite H. unfold units_xpath. by rewrite Ht, Hn.
Qed.

Ltac step_xapi :=
  match goal with
  | |- context [xapi_fault ?l] => destruct (xapi_fault l)
  end.

Ltac issued_calls :=
  first [ exists []; rewrite app_nil_r; split; [reflexivity|]
        | eexists; split; [reflexivity|] ].

Ltac prefix_calls :=
  cbn; first [ reflexivity | apply prefix_nil | apply prefix_cons; prefix_calls ].

(** C5. The calls [delete] issues are, in order, the deletes of the
    virtual-router and zone memberships and then the delete of the
    interface: when the delete of the interface is issued, every membership
    delete has been issued before it.  The calls [apply] issues are the edit
    of the interface and then the sets of its zone and virtual-router
    memberships: every membership set issued comes after the edit.  An
    execution that stops early (no device, a failing call, an unknown type)
    issues a prefix of these calls. *)
Theorem C5_membership_ordering (i : Interface) (dev : PanDevice) :
  (exists issued,
     calls (delete i dev).1 = (calls dev ++ issued)%list /\
     (issued `prefix_of` membership_deletes i \/
      exists xe, _xpath i = Ok xe /\
        issued = (membership_deletes i ++ [xapi_delete xe.1])%list))
  /\
  (exists issued,
     calls (apply i dev).1 = (calls dev ++ issued)%list /\
     (issued = [] \/
      exists xe s sets, _xpath i = Ok xe /\ tostring xe.2 = Ok s /\
        issued = xapi_edit xe.1 s :: sets /\
        sets `prefix_of` membership_sets i)).
Proof.
  split.
  - unfold delete, membership_deletes, xapi, when, set_config_changed, lift,
      mbind, M_bind, mret, M_ret.
    destruct (pan_device i) as [d|]; cbn;
      [|exists []; rewrite app_nil_r; split; [done|left; apply prefix_nil]].
    destruct (truthy (router i)), (truthy (_zone i)), (_xpath i) as [xe|];
      cbn; repeat (step_xapi; cbn); rewrite <- ?(assoc_L (++));
      issued_calls;
      first [ right; eexists; split; reflexivity
            | left; prefix_calls ].
  - unfold apply, membership_sets, xapi, when, set_config_changed, lift,
      mbind, M_bind, mret, M_ret.
    destruct (pan_device i) as [d|]; cbn;
      [|exists []; rewrite app_nil_r; by auto].
    destruct (_xpath i) as [xe|]; cbn;
      [|exists []; rewrite app_nil_r; by auto].
    destruct (tostring xe.2) as [s|] eqn:Hs; cbn;
      [|exists []; rewrite app_nil_r; by auto].
    destruct (truthy (router i)), (truthy (_zone i));
      cbn; repeat (step_xapi; cbn); rewrite <- ?(assoc_L (++));
      issued_calls;
      right; exists xe, s; eexists; (split; [done|]); (split; [done|]);
      (split; [reflexivity|]); prefix_calls.
Qed.

(** C10. Assigning to [zone] the value it has changes nothing: the object
    is the same and no call is sent to the device, whatever
    [apply_changes] is.  Hence, after [zone] has been assigned a value,
    assigning the same value again leaves the object and the device as the
    first assignment left them. *)
Theorem C10_zone_same_value_noop (i : Interface) (value : option string)
    (dev : PanDevice) :
  (zone_setter (_zone i) i).1 = i /\
  (zone_setter (_zone i) i).2 dev = (dev, Ok tt) /\
  let once := zone_setter value i in
  let twice := zone_setter value once.1 in
  twice.1 = once.1 /\
  twice.2 (once.2 dev).1 = ((once.2 dev).1, Ok tt).
Proof.
  unfold zone_setter.
  rewrite decide_True by done. split; [done|]. split; [done|].
  destruct (decide (_zone i = value)) as [Heq|Hne]; cbn.
  - rewrite decide_True by done. done.
  - rewrite decide_True by done. done.
Qed.

(** C9. When [Interface(...)] returns, the name given was a string, and
    name and tag are stored as follows.  With a tag given: the tag is
    stored as given, and the name is the name given when that ends in a dot
    and digits (whatever these digits are: the two are not compared), and
    otherwise the name given followed by a dot and the tag.  With no tag
    given: the name is stored as given; when it ends in a dot and digits
    and has a single dot, the tag is all that follows the dot, so that the
    name is its prefix, a dot and the tag; when it does not end in a dot
    and digits there is no tag. *)
Theorem C9_init_name_tag (name_ : option string) (type_ mode_ : string)
    (tag_ zone_ : option string) (subnets_ : subnets_arg)
    (router_ pan_device_ : option string) (apply_changes_ : bool)
    (parent_ : option Interface) (state_ : option string)
    (dev : PanDevice) (i : Interface) :
  (__init__ name_ type_ mode_ tag_ zone_ subnets_ router_ pan_device_
     apply_changes_ parent_ state_ dev).2 = Ok i ->
  exists n, name_ = Some n /\
    match tag_ with
    | Some t =>
        _tag i = Some t /\
        name i = Some (if Re.search re_dot_digits_end n then n else n ++ "." ++ t)
    | None =>
        name i = Some n /\
        if Re.search re_dot_digits_end n
        then forall a b, Re.split "." n = [a; b] ->
               _tag i = Some b /\ n = a ++ "." ++ b
        else _tag i = None
    end.
Proof.
  unfold __init__, subnets_setter, tag_setter, when, lift, mbind, M_bind, mret, M_ret.
  unfold with_name, with_state, with_subnets, with_tag.
  remember (Re.search re_dot_digits_end) as found eqn:Hfound.
  remember (Re.split ".") as split_dot eqn:Hsplit. cbn.
  match goal with |- context [(if apply_changes_ then ?a else ?b) dev] =>
    destruct ((if apply_changes_ then a else b) dev) as [dev' [[]|e]] end;
    [|done].
  destruct name_ as [n|]; [|done]. cbn.
  intros H. exists n. split; [done|]. revert H.
  destruct tag_ as [t|]; cbn.
  - destruct (found n); cbn; intros H; by simplify_eq.
  - destruct (found n) eqn:Hs; cbn; [|intros H; by simplify_eq].
    destruct (split_dot n !! 1%nat) as [t|] eqn:Ht; cbn; [|done].
    intros H; simplify_eq. cbn. split; [done|].
    intros a b Hab. rewrite Hab in Ht. simplify_eq.
    split; [done|]. by apply split_join.
Qed.

(** ** ElementTree paths *)

Lemma select_app (s : step) (l1 l2 : list element) :
  select s (l1 ++ l2) = (select s l1 ++ select s l2)%list.
Proof. apply flat_map_app. Qed.

Lemma findall_from_step (s : step) (path : list step) (ctx : list element) :
  findall_from (s :: path) ctx = findall_from path (select s ctx).
Proof. reflexivity. Qed.

Lemma findall_from_nil (path : list step) : findall_from path [] = [].
Proof. induction path as [|s path IH]; [done|]. by rewrite findall_from_step. Qed.

Lemma findall_from_app (path : list step) (l1 l2 : list element) :
  findall_from path (l1 ++ l2) = (findall_from path l1 ++ findall_from path l2)%list.
Proof.
  revert l1 l2. induction path as [|s path IH]; intros l1 l2; [done|].
  by rewrite !findall_from_step, select_app, IH.
Qed.

Lemma findall_from_cons (path : list step) (e : element) (l : list element) :
  findall_from path (e :: l) = (findall path e ++ findall_from path l)%list.
Proof. apply (findall_from_app path [e] l). Qed.

Lemma findall_step (s : step) (path : list step) (e : element) :
  findall (s :: path) e = findall_from path (List.filter (step_match s) (children e)).
Proof. unfold findall, findall_from, select. cbn. by rewrite app_nil_r. Qed.

(** [update_path] reaches an element exactly when [find] does. *)
Lemma update_path_None (path : list step) (f : element -> element) (e : element) :
  update_path path f e = None <-> find path e = None.
Proof.
  unfold find. revert e. induction path as [|s path IH]; intros e; [by split|].
  cbn [update_path]. rewrite fmap_None, findall_step.
  induction (children e) as [|c cs IHcs];
    [cbn; by rewrite findall_from_nil|].
  cbn [update_children List.filter].
  destruct (step_match s c).
  - rewrite findall_from_cons.
    destruct (update_path path f c) eqn:Hc.
    + split; [done|]. intros H.
      assert (head (findall path c) = None) as Hn by (by destruct (findall path c)).
      apply IH in Hn. congruence.
    + apply IH in Hc. rewrite fmap_None, IHcs.
      by destruct (findall path c).
  - by rewrite fmap_None, IHcs.
Qed.

(** ** panorama.py *)

Lemma filter_entries_all (l : list string) :
  List.filter (step_match (Tag "entry"))
    ((fun serial => Element "entry" [("name", Some serial)] None []) <$> l)
  = (fun serial => Element "entry" [("name", Some serial)] None []) <$> l.
Proof. induction l as [|x l IH]; [done|]. decide_literals. by rewrite IH. Qed.

(** C8. With [cmd] unset, [commit_all] submits the serialization of a
    [commit-all] element.  Without a device-group the element is empty,
    whatever serials are given.  With a device-group it has one child,
    [shared-policy/device-group/entry] named after the device-group; that
    entry has no child when no serial is given, and otherwise a single
    [devices] child with one [entry] per serial, named after it, in order. *)
Theorem C8_commit_all_command (sync sync_all exception : bool)
    (devicegroup : option string) (serials : list string) :
  let e := commit_all_element devicegroup serials in
  commit_all sync sync_all exception devicegroup serials CmdNone
  = (cmd ← tostring e; _commit sync sync_all true exception cmd)
  /\ tag e = "commit-all" /\ attrib e = [] /\ text e = None
  /\ match devicegroup with
     | None => children e = []
     | Some dgn =>
         (exists dg_e,
            children e =
              [Element "shared-policy" [] None [Element "device-group" [] None [dg_e]]]
            /\ tag dg_e = "entry" /\ attrib dg_e = [("name", Some dgn)]
            /\ children dg_e =
                 (if bool_decide (serials = []) then []
                  else [Element "devices" [] None
                          ((fun serial => Element "entry" [("name", Some serial)] None [])
                             <$> serials)]))
         /\ get "name" <$>
              findall [Tag "shared-policy"; Tag "device-group"; Tag "entry"] e
            = [Some dgn]
         /\ get "name" <$>
              findall [Tag "shared-policy"; Tag "device-group"; Tag "entry";
                       Tag "devices"; Tag "entry"] e
            = Some <$> serials
     end.
Proof.
  intros e. subst e. split; [done|].
  destruct devicegroup as [dgn|]; cbn; [|done].
  do 3 (split; [done|]). split; [by eexists|].
  unfold findall, findall_from, select.
  split; [by decide_literals|].
  destruct serials as [|s l]; decide_literals; [done|].
  rewrite filter_entries_all, app_nil_r. f_equal.
  clear. induction l as [|x l IH]; [done|]. cbn. by f_equal.
Qed.

Lemma assoc_assoc_set {V} (k : string) (v : V) (l : list (string * V)) :
  assoc k (assoc_set k v l) = Some v.
Proof.
  induction l as [|[k' v'] l IH]; cbn.
  - by rewrite decide_True.
  - destruct (decide (k' = k)) as [->|Hne]; cbn.
    + by rewrite decide_True.
    + by rewrite decide_False.
Qed.

Lemma get_set (k : string) (v : option string) (e : element) :
  get k (set k v e) = v.
Proof. unfold get, set. cbn. by rewrite assoc_assoc_set. Qed.

Lemma findall_vsys_new_vsys_device (entry vsys_entry : element) :
  findall [Tag "vsys"; Tag "entry"] (new_vsys_device entry vsys_entry)
  = findall [Tag "vsys"; Tag "entry"] entry.
Proof.
  unfold findall, findall_from, select, new_vsys_device, SubElement, append, set.
  cbn. rewrite !app_nil_r, <- !(assoc_L (++)), List.filter_app.
  decide_literals. by rewrite app_nil_r.
Qed.

Lemma find_None_filter (t : string) (e : element) :
  find [Tag t] e = None -> List.filter (step_match (Tag t)) (children e) = [].
Proof.
  unfold find, findall, findall_from, select. cbn. rewrite app_nil_r.
  by destruct (List.filter _ _).
Qed.

Lemma findtext_appended (t : string) (x : option string) (e : element)
    (after : list element) :
  find [Tag t] e = None ->
  findtext [Tag t]
    (Element (tag e) (attrib e) (text e)
       (children e ++ Element t [] x [] :: after))
  = Some (default "" x).
Proof.
  intros H%find_None_filter. unfold findtext, find, findall, findall_from, select.
  cbn. rewrite app_nil_r, List.filter_app, H. cbn.
  by rewrite bool_decide_eq_true_2.
Qed.

(** The entry made for a vsys of a device entry that has no [vsys_id] and
    no [vsys_name] of its own: what a record is read from. *)
Lemma new_vsys_device_fields (entry vsys_entry : element) :
  find [Tag "vsys_id"] entry = None -> find [Tag "vsys_name"] entry = None ->
  get "name" (new_vsys_device entry vsys_entry) = findtext [Tag "serial"] entry
  /\ findtext [Tag "vsys_id"] (new_vsys_device entry vsys_entry)
     = Some (default "" (get "name" vsys_entry))
  /\ findtext [Tag "vsys_name"] (new_vsys_device entry vsys_entry)
     = Some (default "" (findtext [Tag "display-name"] vsys_entry)).
Proof.
  intros Hid Hname. split; [apply get_set|].
  unfold new_vsys_device, SubElement, append, set. cbn [tag attrib text children].
  rewrite <- !(assoc_L (++)). cbn [app]. split.
  - by apply (findtext_appended "vsys_id" _ entry).
  - apply find_None_filter in Hname.
    unfold findtext, find, findall, findall_from, select. cbn.
    rewrite app_nil_r, List.filter_app, Hname. cbn. by decide_literals.
Qed.

Lemma Forall2_flat_map_inv {A B C} (P : B -> C -> Prop) (f : A -> list B)
    (l : list A) (k : list C) :
  Forall2 P (flat_map f l) k ->
  exists ks, k = concat ks /\ Forall2 (fun x kx => Forall2 P (f x) kx) l ks.
Proof.
  revert k. induction l as [|x l IH]; intros k; cbn.
  - intros ->%Forall2_nil_inv_l. exists []. split; [done|constructor].
  - intros (k1 & k2 & H1 & H2 & ->)%Forall2_app_inv_l.
    destruct (IH _ H2) as (ks & -> & Hks). exists (k1 :: ks).
    split; [done|]. by constructor.
Qed.


Lemma filter_devices_app (only_connected : bool) (devices_xml filtered : element)
    (l1 l2 : list requested) :
  filter_devices only_connected devices_xml filtered (l1 ++ l2)
  = (filtered' ← filter_devices only_connected devices_xml filtered l1;
     filter_devices only_connected devices_xml filtered' l2).
Proof.
  revert filtered. induction l1 as [|d l1 IH]; intros filtered; [done|].
  cbn. destruct (filter_device _ _ _ d) as [f|]; cbn; [apply IH|done].
Qed.

Lemma filter_device_absent (only_connected : bool) (devices_xml filtered : element)
    (device : requested) :
  find [TagName "entry" (req_str device)] devices_xml = None ->
  filter_device only_connected devices_xml filtered device
  = Raise (not_found_error only_connected (req_str device)).
Proof. intros H. unfold filter_device. by rewrite H. Qed.

(** C2. When a requested serial has no entry in the operational device
    list, [refresh_devices] raises and returns nothing.  When the requested
    devices before it were all handled without an error, the error raised
    is the one for this serial: not connected when [only_connected], not
    attached otherwise. *)
Theorem C2_requested_serial_absent (devices : list (option requested))
    (only_connected expand_vsys include_device_groups add running_config : bool)
    (self : Panorama) (response devices_xml : element)
    (before after : list requested) (device : requested) :
  op (if only_connected then "show devices connected" else "show devices all")
    = Ok response ->
  find [Tag "result"; Tag "devices"] response = Some devices_xml ->
  omap id devices = (before ++ device :: after)%list ->
  find [TagName "entry" (req_str device)] devices_xml = None ->
  (exists e,
     refresh_devices devices only_connected expand_vsys include_device_groups
       add running_config self = Raise e)
  /\ (is_ok (filter_devices only_connected devices_xml
               (Element "devices" [] None []) before) = true ->
      refresh_devices devices only_connected expand_vsys include_device_groups
        add running_config self
      = Raise
          (if only_connected
           then PanNotConnectedOnPanorama
                  ("Can't find device with serial " ++ req_str device
                   ++ " attached and connected to Panorama at " ++ self_id)
           else PanNotAttachedOnPanorama
                  ("Can't find device with serial " ++ req_str device
                   ++ " attached to Panorama at " ++ self_id))).
Proof.
  intros Hop Hfind Hdev Habsent.
  unfold refresh_devices, requested_devices_xml.
  rewrite Hop, Hdev. cbn. rewrite Hfind.
  rewrite bool_decide_eq_false_2 by (by destruct before).
  rewrite filter_devices_app. cbn.
  destruct (filter_devices _ _ _ before) as [filtered|e]; cbn.
  - rewrite filter_device_absent by done. cbn. split; [by eexists|done].
  - split; [by eexists|done].
Qed.

Lemma find_firewall_None (s v : option string) (l : list Firewall) :
  find_firewall s v l = None <->
  forall x, x ∈ l -> ~ (serial x = s /\ vsys x = v).
Proof.
  induction l as [|y l IH]; cbn.
  - split; [|done]. intros _ x Hx. by apply elem_of_nil in Hx.
  - unfold fw_matches at 1.
    destruct (decide (serial y = s)) as [Hs|Hs];
      [destruct (decide (vsys y = v)) as [Hv|Hv]|].
    + rewrite !bool_decide_eq_true_2 by done. cbn. split; [done|].
      intros H. destruct (H y); [left|done].
    + rewrite (bool_decide_eq_false_2 (vsys y = v)) by done.
      rewrite andb_false_r. rewrite fmap_None, IH. split.
      * intros H x [->|Hx]%elem_of_cons; [by intros [??]|by apply H].
      * intros H x Hx. apply H. by right.
    + rewrite (bool_decide_eq_false_2 (serial y = s)) by done. cbn.
      rewrite fmap_None, IH. split.
      * intros H x [->|Hx]%elem_of_cons; [by intros [??]|by apply H].
      * intros H x Hx. apply H. by right.
Qed.

Lemma find_firewall_sublist (s v : option string) (l l' : list Firewall) :
  l' `sublist_of` l -> find_firewall s v l = None -> find_firewall s v l' = None.
Proof.
  rewrite !find_firewall_None. intros Hsub H x Hx.
  apply H. by eapply elem_of_sublist.
Qed.

Lemma attach_member_inv (only_connected : bool) (fw_entry : option element)
    (s v : option string) (st st' : list Firewall * DeviceGroup) :
  attach_member only_connected fw_entry s v st = Ok st' ->
  st'.1 `sublist_of` st.1 /\ dg_name st'.2 = dg_name st.2
  /\ dg_children st.2 `prefix_of` dg_children st'.2.
Proof.
  destruct st as [fws dg]. unfold attach_member.
  destruct (find_firewall s v fws) as [[i fw]|].
  - destruct fw_entry as [fe|]; [|done].
    destruct (set_shared_policy_synced _ fw) as [fw'|]; [|done].
    cbn. intros [= <-]. cbn. split; [apply sublist_delete|].
    split; [done|]. by apply prefix_app_r.
  - destruct only_connected; intros [= <-]; cbn; [done|].
    split; [done|]. split; [done|]. by apply prefix_app_r.
Qed.

Lemma attach_vsys_inv (devices : list requested) (only_connected : bool)
    (fw_entry : option element) (s : option string) (vl : list (option string))
    (st st' : list Firewall * DeviceGroup) :
  attach_vsys devices only_connected fw_entry s vl st = Ok st' ->
  st'.1 `sublist_of` st.1 /\ dg_name st'.2 = dg_name st.2
  /\ dg_children st.2 `prefix_of` dg_children st'.2.
Proof.
  revert st. induction vl as [|v vl IH]; intros st; cbn.
  - by intros [= <-].
  - destruct (vsys_skipped devices v); cbn; [apply IH|].
    destruct (attach_member _ _ _ v st) as [st1|] eqn:H1; cbn; [|done].
    intros H2. apply attach_member_inv in H1 as (?&?&?).
    apply IH in H2 as (?&?&?). split; [by etrans|].
    split; [congruence|by etrans].
Qed.

Lemma member_path_name (d1 d2 : DeviceGroup) (s : option string) :
  dg_name d1 = dg_name d2 -> member_path d1 s = member_path d2 s.
Proof. unfold member_path. by intros ->. Qed.

Lemma all_dg_vsys_name (cfg : element) (d1 d2 : DeviceGroup) (s : option string) :
  dg_name d1 = dg_name d2 -> all_dg_vsys cfg d1 s = all_dg_vsys cfg d2 s.
Proof.
  intros H. unfold all_dg_vsys, declared_vsys.
  by rewrite (member_path_name d1 d2 s H).
Qed.

Lemma attach_serial_inv (devices : list requested) (only_connected : bool)
    (cfg : element) (s : option string) (st st' : list Firewall * DeviceGroup) :
  attach_serial devices only_connected cfg s st = Ok st' ->
  st'.1 `sublist_of` st.1 /\ dg_name st'.2 = dg_name st.2
  /\ dg_children st.2 `prefix_of` dg_children st'.2.
Proof.
  unfold attach_serial. destruct (serial_skipped devices s).
  - by intros [= <-].
  - apply attach_vsys_inv.
Qed.

Lemma attach_serials_inv (devices : list requested) (only_connected : bool)
    (cfg : element) (serials : list (option string))
    (st st' : list Firewall * DeviceGroup) :
  attach_serials devices only_connected cfg serials st = Ok st' ->
  st'.1 `sublist_of` st.1 /\ dg_name st'.2 = dg_name st.2
  /\ dg_children st.2 `prefix_of` dg_children st'.2.
Proof.
  revert st. induction serials as [|s serials IH]; intros st; cbn.
  - by intros [= <-].
  - destruct (attach_serial _ _ _ s st) as [st1|] eqn:H1; cbn; [|done].
    intros H2. apply attach_serial_inv in H1 as (?&?&?).
    apply IH in H2 as (?&?&?). split; [by etrans|].
    split; [congruence|by etrans].
Qed.

Lemma attach_member_placeholder (fw_entry : option element)
    (s v : option string) (st : list Firewall * DeviceGroup) :
  find_firewall s v st.1 = None ->
  attach_member false fw_entry s v st
  = Ok (st.1, mkDeviceGroup (dg_name st.2) (dg_tag st.2)
                (dg_children st.2 ++ [ChildFirewall (FIREWALL_CLASS s v)])).
Proof. destruct st as [fws dg]. unfold attach_member. cbn. by intros ->. Qed.

Lemma attach_vsys_placeholder (devices : list requested)
    (fw_entry : option element) (s v : option string)
    (vl : list (option string)) (st st' : list Firewall * DeviceGroup) :
  attach_vsys devices false fw_entry s vl st = Ok st' ->
  v ∈ vl -> vsys_skipped devices v = false ->
  find_firewall s v st.1 = None ->
  ChildFirewall (FIREWALL_CLASS s v) ∈ dg_children st'.2.
Proof.
  revert st. induction vl as [|v0 vl IH]; intros st Hrun Hin Hskip Hnone.
  { by apply elem_of_nil in Hin. }
  cbn in Hrun. apply elem_of_cons in Hin as [<-|Hin].
  - rewrite Hskip, attach_member_placeholder in Hrun by done. cbn in Hrun.
    apply attach_vsys_inv in Hrun as (_&_&Hpre). cbn in Hpre.
    eapply elem_of_prefix; [|done]. apply elem_of_app. right. by left.
  - destruct (vsys_skipped devices v0); cbn in Hrun; [by eapply IH|].
    destruct (attach_member _ _ _ v0 st) as [st1|] eqn:H1; cbn in Hrun; [|done].
    apply attach_member_inv in H1 as (Hsub&_&_).
    eapply IH; [done..|]. by eapply find_firewall_sublist.
Qed.

Lemma attach_serials_placeholder (devices : list requested) (cfg : element)
    (s v : option string) (serials : list (option string))
    (st st' : list Firewall * DeviceGroup) :
  attach_serials devices false cfg serials st = Ok st' ->
  s ∈ serials -> serial_skipped devices s = false ->
  v ∈ all_dg_vsys cfg st.2 s -> vsys_skipped devices v = false ->
  find_firewall s v st.1 = None ->
  ChildFirewall (FIREWALL_CLASS s v) ∈ dg_children st'.2.
Proof.
  revert st. induction serials as [|s0 serials IH];
    intros st Hrun Hin Hskip Hv Hvskip Hnone.
  { by apply elem_of_nil in Hin. }
  cbn in Hrun.
  destruct (attach_serial _ _ _ s0 st) as [st1|] eqn:H1; cbn in Hrun; [|done].
  apply elem_of_cons in Hin as [<-|Hin].
  - unfold attach_serial in H1. rewrite Hskip in H1.
    eapply attach_vsys_placeholder in H1; [|done..].
    apply attach_serials_inv in Hrun as (_&_&Hpre).
    by eapply elem_of_prefix.
  - apply attach_serial_inv in H1 as (Hsub&Hname&_).
    eapply IH; [done..| |done|].
    + by rewrite (all_dg_vsys_name cfg st1.2 st.2).
    + by eapply find_firewall_sublist.
Qed.


Lemma add_devicegroup_children (self : Panorama) (a : nat) :
  pan_children (add_devicegroup self a) = pan_children self
  \/ pan_children (add_devicegroup self a)
     = (pan_children self ++ [ChildDeviceGroup a])%list.
Proof.
  unfold add_devicegroup.
  destruct (pan_heap self !! a) as [dg|]; [|by left].
  destruct (find_devicegroup _ self) as [f|]; [by left|by right].
Qed.

Lemma add_devicegroup_length (self : Panorama) (a : nat) :
  length (pan_heap (add_devicegroup self a)) = length (pan_heap self).
Proof.
  unfold add_devicegroup.
  destruct (pan_heap self !! a) as [dg|]; [|done].
  destruct (find_devicegroup _ self) as [f|]; [|done].
  cbn. by rewrite !length_alter.
Qed.

Lemma add_devicegroups_children (addrs : list nat) (self : Panorama) :
  exists new, new `sublist_of` addrs /\
    pan_children (fold_left add_devicegroup addrs self)
    = (pan_children self ++ (ChildDeviceGroup <$> new))%list.
Proof.
  revert self. induction addrs as [|a addrs IH]; intros self; cbn.
  - exists []. by rewrite app_nil_r.
  - destruct (IH (add_devicegroup self a)) as (new & Hsub & ->).
    destruct (add_devicegroup_children self a) as [->| ->].
    + exists new. split; [by apply sublist_cons|done].
    + exists (a :: new). split; [by apply sublist_skip|].
      by rewrite <- (assoc_L (++)).
Qed.

Lemma filter_firewalls_fmap (fws : list Firewall) :
  List.filter is_firewall (ChildFirewall <$> fws) = ChildFirewall <$> fws.
Proof. induction fws as [|x l IH]; [done|]. cbn. by rewrite IH. Qed.

Lemma filter_not_firewalls_fmap (fws : list Firewall) :
  List.filter (fun c => negb (is_firewall c)) (ChildFirewall <$> fws) = [].
Proof. induction fws as [|x l IH]; [done|]. cbn. by rewrite IH. Qed.

Lemma filter_firewalls_removeall (cs : list child) :
  List.filter is_firewall (removeall_firewalls cs) = [].
Proof.
  unfold removeall_firewalls. induction cs as [|c cs IH]; [done|].
  cbn. destruct (is_firewall c) eqn:Hc; cbn; [done|]. by rewrite Hc.
Qed.

Lemma filter_not_firewalls_removeall (cs : list child) :
  List.filter (fun c => negb (is_firewall c)) (removeall_firewalls cs)
  = removeall_firewalls cs.
Proof.
  unfold removeall_firewalls. induction cs as [|c cs IH]; [done|].
  cbn. destruct (is_firewall c) eqn:Hc; cbn; [done|]. by rewrite Hc, IH.
Qed.

Lemma removeall_firewalls_app (l1 l2 : list child) :
  removeall_firewalls (l1 ++ l2)
  = (removeall_firewalls l1 ++ removeall_firewalls l2)%list.
Proof. apply List.filter_app. Qed.

(** One step of the loop keeps, in every device-group object, the name and
    the children that are not firewalls, when the reconciled device-group
    holds firewalls only. *)
Lemma add_devicegroup_frame (self : Panorama) (a : nat) :
  (forall dg, pan_heap self !! a = Some dg ->
     removeall_firewalls (dg_children dg) = []) ->
  forall b g, pan_heap self !! b = Some g ->
    exists g', pan_heap (add_devicegroup self a) !! b = Some g'
      /\ dg_name g' = dg_name g
      /\ removeall_firewalls (dg_children g') = removeall_firewalls (dg_children g).
Proof.
  intros Hnew b g Hb. unfold add_devicegroup.
  destruct (pan_heap self !! a) as [dg|] eqn:Ha; [|by exists g].
  destruct (find_devicegroup (dg_name dg) self) as [f|]; [|by exists g].
  cbn. destruct (decide (f = b)) as [->|Hne].
  - rewrite !list_lookup_alter_eq, Hb. cbn.
    eexists. split; [done|]. split; [done|]. cbn.
    unfold extend. rewrite List.filter_app, filter_not_firewalls_removeall.
    pose proof (Hnew dg eq_refl) as Hdg.
    destruct (decide (b = a)) as [->|Hba].
    + rewrite list_lookup_alter_eq, Ha. cbn.
      by rewrite filter_not_firewalls_removeall, Hdg, app_nil_r.
    + rewrite list_lookup_alter_ne, Ha by done. cbn.
      unfold removeall_firewalls in Hdg. by rewrite Hdg, app_nil_r.
  - rewrite !list_lookup_alter_ne by done. by exists g.
Qed.

Lemma add_devicegroups_frame (addrs : list nat) (self : Panorama) :
  (forall a dg, a ∈ addrs -> pan_heap self !! a = Some dg ->
     removeall_firewalls (dg_children dg) = []) ->
  forall b g, pan_heap self !! b = Some g ->
    exists g', pan_heap (fold_left add_devicegroup addrs self) !! b = Some g'
      /\ dg_name g' = dg_name g
      /\ removeall_firewalls (dg_children g') = removeall_firewalls (dg_children g).
Proof.
  revert self. induction addrs as [|a addrs IH]; intros self Hnew b g Hb.
  { by exists g. }
  cbn [fold_left].
  assert (forall dg, pan_heap self !! a = Some dg ->
            removeall_firewalls (dg_children dg) = []) as Ha.
  { intros dg. apply Hnew. by left. }
  destruct (add_devicegroup_frame self a Ha b g Hb) as (g1 & Hg1 & Hn1 & Hc1).
  destruct (IH (add_devicegroup self a)) with (b := b) (g := g1)
    as (g' & Hg' & Hn' & Hc'); [|done|].
  - intros a' dg' Hin Hdg'.
    destruct (pan_heap self !! a') as [dg0|] eqn:H0.
    + destruct (add_devicegroup_frame self a Ha a' dg0 H0) as (g2 & Hg2 & _ & Hc2).
      rewrite Hg2 in Hdg'. simplify_eq. rewrite Hc2. eapply Hnew; [|done].
      by right.
    + exfalso. apply lookup_ge_None in H0.
      apply lookup_lt_Some in Hdg'.
      rewrite add_devicegroup_length in Hdg'. lia.
  - exists g'. split; [done|]. split; congruence.
Qed.


(** * Further properties of network.py *)

Lemma string_app_assoc (a b c : string) : (a ++ b) ++ c = a ++ (b ++ c).
Proof.
  induction a as [|x a IH]; [done|]. rewrite !append_cons. by rewrite IH.
Qed.

(** X1. [_xpath] fails exactly for a type other than ethernet and vlan, with
    the error for an unknown type, and for an ethernet interface with
    neither a parent nor a name, with a [TypeError]. *)
Theorem xpath_failure (i : Interface) :
  (is_ok (_xpath i) = false <->
   (type i <> "ethernet" /\ type i <> "vlan")
   \/ (type i = "ethernet" /\ parent i = None /\ name i = None))
  /\ (type i <> "ethernet" -> type i <> "vlan" ->
      _xpath i = Raise (PanDeviceError ("Unknown interface type: " ++ type i)))
  /\ (type i = "ethernet" -> parent i = None -> name i = None ->
      _xpath i = Raise TypeError).
Proof.
  unfold _xpath. split; [|split].
  - destruct (decide (type i = "ethernet")) as [He|He].
    + destruct (parent i) as [p|]; cbn.
      { split; [done|]. intros [[? _]|(_&?&_)]; done. }
      destruct (name i) as [n|]; cbn.
      * destruct (Re.search_group _ _ n); cbn;
          (split; [done|]); intros [[? _]|(_&_&?)]; done.
      * split; [|done]. intros _. by right.
    + destruct (decide (type i = "vlan")) as [Hv|Hv]; cbn.
      * split; [done|]. intros [[_ ?]|(?&_)]; done.
      * split; [|done]. intros _. by left.
  - intros He Hv. by rewrite !decide_False.
  - intros He -> ->. by rewrite decide_True.
Qed.

(** X2. When [_xpath] fails and no remote call does, [apply] marks the device
    as changed and sends nothing, and [delete] marks it as changed and has
    removed the memberships of the interface when it raises: the interface
    itself is not deleted. *)
Theorem failing_xpath_partial_effects (i : Interface) (dev : PanDevice) (e : exn) :
  _xpath i = Raise e -> pan_device i <> None ->
  (forall issued, xapi_fault issued = None) ->
  apply i dev = (mkPanDevice true (calls dev), Raise e)
  /\ delete i dev
     = (mkPanDevice true (calls dev ++ membership_deletes i), Raise e).
Proof.
  intros Hx Hdev Hfault.
  unfold apply, delete, membership_deletes, xapi, when, set_config_changed, lift,
    mbind, M_bind, mret, M_ret.
  destruct (pan_device i) as [d|]; [|done]. rewrite Hx. cbn. split; [done|].
  destruct (truthy (router i)), (truthy (_zone i)); cbn;
    rewrite ?Hfault; cbn; rewrite ?Hfault; cbn;
    rewrite <- ?(assoc_L (++)), ?app_nil_r; done.
Qed.

(** X3. With a device, an xpath and no failing call, [apply] sends the edit of
    the interface followed by its membership sets, and [delete] sends its
    membership deletes followed by the delete of the interface; both return
    normally and mark the device as changed. *)
Theorem apply_delete_complete (i : Interface) (dev : PanDevice)
    (xpath s : string) (root : element) :
  _xpath i = Ok (xpath, root) -> tostring root = Ok s -> pan_device i <> None ->
  (forall issued, xapi_fault issued = None) ->
  apply i dev
  = (mkPanDevice true (calls dev ++ xapi_edit xpath s :: membership_sets i), Ok tt)
  /\ delete i dev
     = (mkPanDevice true (calls dev ++ membership_deletes i ++ [xapi_delete xpath]),
        Ok tt).
Proof.
  intros Hx Hs Hdev Hfault.
  unfold apply, delete, membership_deletes, membership_sets, xapi, when,
    set_config_changed, lift, mbind, M_bind, mret, M_ret.
  destruct (pan_device i) as [d|]; [|done]. rewrite Hx. cbn. rewrite Hs. cbn.
  split.
  - destruct (truthy (router i)), (truthy (_zone i)); cbn;
      rewrite ?Hfault; cbn; rewrite ?Hfault; cbn; rewrite ?Hfault; cbn;
      rewrite <- ?(assoc_L (++)); done.
  - destruct (truthy (router i)), (truthy (_zone i)); cbn;
      rewrite ?Hfault; cbn; rewrite ?Hfault; cbn; rewrite ?Hfault; cbn;
      rewrite <- ?(assoc_L (++)); done.
Qed.

(** X4. The member paths [delete] removes are those of the members [apply]
    adds, in the opposite order: each is the path [apply] sets a member
    under, followed by the member of this interface. *)
Theorem delete_addresses_members_of_apply (i : Interface) :
  membership_deletes i
  = rev ((fun c =>
            match c with
            | xapi_set xpath _ =>
                xapi_delete (xpath ++ "/member[text()='" ++ pystr (name i) ++ "']")
            | _ => c
            end) <$> membership_sets i).
Proof.
  unfold membership_deletes, membership_sets, zone_member_xpath, zone_xpath,
    router_member_xpath.
  destruct (truthy (router i)), (truthy (_zone i)); cbn; try done.
  - by rewrite !string_app_assoc.
  - by rewrite !string_app_assoc.
Qed.

(** X5. The element [_xpath] returns is an [entry] named after the interface.
    Its settings are the entry itself for a sub-interface and a vlan, and
    its single child, named after the mode, for a top-level ethernet
    interface.  The settings hold one [ip/entry] per subnet, in order, for
    a layer3 interface and none otherwise, and the tag when there is one. *)
Theorem xpath_element (i : Interface) (xpath : string) (root : element) :
  _xpath i = Ok (xpath, root) ->
  tag root = "entry" /\ attrib root = [("name", name i)]
  /\ exists settings,
       (root = settings
        \/ (children root = [settings] /\ tag settings = mode i
            /\ type i = "ethernet" /\ parent i = None))
       /\ get "name" <$> findall [Tag "ip"; Tag "entry"] settings
          = (if bool_decide (mode i = "layer3") then Some <$> _subnets i else [])
       /\ findtext [Tag "tag"] settings
          = (if truthy (_tag i) then Some (pystr (_tag i)) else None).
Proof.
  assert (forall t a, let settings := Element t a None (settings_children i) in
            get "name" <$> findall [Tag "ip"; Tag "entry"] settings
            = (if bool_decide (mode i = "layer3") then Some <$> _subnets i else [])
            /\ findtext [Tag "tag"] settings
               = (if truthy (_tag i) then Some (pystr (_tag i)) else None)) as Hs.
  { intros t a settings. subst settings.
    unfold findtext, find, findall, findall_from, select, settings_children. cbn.
    rewrite !app_nil_r, !List.filter_app.
    destruct (bool_decide (mode i = "layer3")) eqn:Hm; cbn.
    - destruct (_subnets i) as [|s0 l] eqn:Hsub; cbn.
      + destruct (_tag i) as [tg|]; cbn; [|done].
        destruct (bool_decide (tg = "")); cbn; decide_literals; done.
      + split.
        * decide_literals. rewrite filter_entries_all.
          destruct (truthy (_tag i)); decide_literals;
            rewrite ?app_nil_r; f_equal;
            clear; induction l as [|x l IH]; cbn; by f_equal.
        * decide_literals.
          destruct (_tag i) as [tg|]; cbn; [|done].
          destruct (bool_decide (tg = "")); cbn; decide_literals; done.
    - destruct (_tag i) as [tg|]; cbn; [|done].
      destruct (bool_decide (tg = "")); cbn; decide_literals; done. }
  unfold _xpath, entry_elem.
  destruct (decide (type i = "ethernet")) as [He|He].
  - destruct (parent i) as [p|] eqn:Hp.
    + intros [= <- <-]. do 2 (split; [done|]). eexists. split; [by left|]. apply Hs.
    + destruct (name i) as [n|] eqn:Hn; [|done].
      destruct (Re.search_group _ _ n).
      * intros [= <- <-]. do 2 (split; [done|]). eexists. split; [by left|]. apply Hs.
      * intros [= <- <-]. do 2 (split; [done|]). eexists.
        split; [right; by split|]. apply Hs.
  - destruct (decide (type i = "vlan")); [|done].
    intros [= <- <-]. do 2 (split; [done|]). eexists. split; [by left|]. apply Hs.
Qed.

Lemma with_zone_same (i : Interface) : with_zone (_zone i) i = i.
Proof. by destruct i. Qed.

(** X6. Assigning [zone] always leaves the object with the new zone and its
    other attributes as they were, also when a remote call fails.  It never
    marks the device as changed.  The calls it sends are a prefix of: the
    delete of the member under the old zone, when there was one, then the
    set of the member under the new zone, when there is one; nothing at all
    without [apply_changes] or for an unchanged zone.  With a device and no
    failing call all of them are sent. *)
Theorem zone_setter_effects (i : Interface) (value : option string) (dev : PanDevice) :
  let planned :=
    if apply_changes i && negb (bool_decide (_zone i = value)) then
      ((if bool_decide (_zone i <> None)
        then [xapi_delete (zone_member_xpath (_zone i) i)] else [])
       ++ (if bool_decide (value <> None)
           then [xapi_set (zone_xpath value) (member_element i)] else []))%list
    else [] in
  (zone_setter value i).1 = with_zone value i
  /\ config_changed ((zone_setter value i).2 dev).1 = config_changed dev
  /\ (exists issued,
        calls ((zone_setter value i).2 dev).1 = (calls dev ++ issued)%list
        /\ issued `prefix_of` planned)
  /\ (pan_device i <> None -> (forall issued, xapi_fault issued = None) ->
      (zone_setter value i).2 dev
      = (mkPanDevice (config_changed dev) (calls dev ++ planned), Ok tt)).
Proof.
  intros planned. subst planned. unfold zone_setter.
  destruct (decide (_zone i = value)) as [<-|Hne].
  { rewrite bool_decide_eq_true_2, andb_false_r by done. cbn.
    split; [by rewrite with_zone_same|]. split; [done|].
    split; [exists []; by rewrite app_nil_r|].
    intros _ _. rewrite app_nil_r. by destruct dev. }
  rewrite (bool_decide_eq_false_2 (_zone i = value)), andb_true_r by done.
  cbn [fst snd]. split; [done|].
  unfold when, xapi, zone_member_xpath, zone_xpath, member_element, with_zone,
    mbind, M_bind, mret, M_ret. cbn.
  destruct (apply_changes i); cbn.
  2: { split; [done|]. split; [exists []; by rewrite app_nil_r|].
       intros _ _. rewrite app_nil_r. by destruct dev. }
  destruct (pan_device i) as [d|] eqn:Hd.
  - split; [|split].
    + destruct (bool_decide (_zone i <> None)), (bool_decide (value <> None));
        cbn; repeat (step_xapi; cbn); done.
    + destruct (bool_decide (_zone i <> None)), (bool_decide (value <> None));
        cbn; repeat (step_xapi; cbn); rewrite <- ?(assoc_L (++));
        issued_calls; prefix_calls.
    + intros _ Hfault.
      destruct (bool_decide (_zone i <> None)), (bool_decide (value <> None));
        cbn; rewrite ?Hfault; cbn; rewrite ?Hfault; cbn;
        rewrite <- ?(assoc_L (++)), ?app_nil_r; by destruct dev.
  - split; [|split; [|done]].
    + by destruct (bool_decide (_zone i <> None)), (bool_decide (value <> None)).
    + exists []. rewrite app_nil_r.
      split; [|apply prefix_nil].
      by destruct (bool_decide (_zone i <> None)), (bool_decide (value <> None)).
Qed.

Lemma split_no_dot (sep : ascii) (n : string) :
  sep ∉ list_ascii_of_string n -> Re.split sep n = [n].
Proof.
  induction n as [|c n IH]; cbn; [done|].
  intros Hn. apply not_elem_of_cons in Hn as [Hc Hn].
  rewrite decide_False by done. by rewrite IH.
Qed.

Lemma split_app_sep (sep : ascii) (n t : string) :
  sep ∉ list_ascii_of_string n ->
  Re.split sep (n ++ String sep t) = n :: Re.split sep t.
Proof.
  induction n as [|c n IH]; intros Hn.
  - rewrite append_nil. cbn. by rewrite decide_True.
  - cbn in Hn. apply not_elem_of_cons in Hn as [Hc Hn].
    rewrite append_cons. cbn. rewrite decide_False by done.
    by rewrite IH.
Qed.

Lemma digits_no_dot (t : string) :
  Re.digit_run t = String.length t -> "."%char ∉ list_ascii_of_string t.
Proof.
  induction t as [|c t IH]; cbn [list_ascii_of_string].
  - intros _. apply not_elem_of_nil.
  - intros [Hc Ht]%digit_run_all. apply not_elem_of_cons. split; [|by apply IH].
    intros <-. done.
Qed.

Lemma rmatch_dot_digits_None (s : string) :
  "."%char ∉ list_ascii_of_string s -> Re.rmatch re_dot_digits_end s = [].
Proof.
  intros Hs. unfold re_dot_digits_end. rewrite rmatch_seq.
  destruct s as [|c s]; [done|]. cbn in Hs.
  apply not_elem_of_cons in Hs as [Hc _]. cbn.
  by rewrite decide_False.
Qed.

Lemma search_no_dot (n : string) :
  "."%char ∉ list_ascii_of_string n -> Re.search re_dot_digits_end n = false.
Proof.
  unfold Re.search. induction n as [|c n IH]; intros Hn.
  - cbn [Re.suffixes existsb]. by rewrite rmatch_dot_digits_None.
  - cbn [Re.suffixes existsb]. rewrite rmatch_dot_digits_None by done.
    cbn in Hn. apply not_elem_of_cons in Hn as [_ Hn]. by rewrite IH.
Qed.

Lemma rmatch_dot_digits_end (t : string) :
  Re.digit_run t = String.length t -> t <> "" ->
  Re.rmatch re_dot_digits_end (String "." t) <> [].
Proof.
  intros Ht Hne. unfold re_dot_digits_end.
  rewrite rmatch_seq. change (String "." t) with ("." ++ t).
  rewrite rmatch_lit. cbn [flat_map]. rewrite app_nil_r, rmatch_seq.
  cbn [Re.rmatch]. rewrite Ht.
  destruct (downto_top 1 (String.length t)) as [l ->].
  { destruct t; [done|cbn; lia]. }
  rewrite fmap_cons. cbn [flat_map].
  replace (Re.drop (String.length t) t) with "".
  - by rewrite decide_True by (by left).
  - clear. induction t as [|c t IH]; [done|]. exact IH.
Qed.

Lemma search_dot_digits_suffix (n t : string) :
  Re.digit_run t = String.length t -> t <> "" ->
  Re.search re_dot_digits_end (n ++ String "." t) = true.
Proof.
  intros Ht Hne. unfold Re.search. induction n as [|c n IH].
  - rewrite append_nil. cbn [Re.suffixes existsb].
    rewrite bool_decide_eq_false_2 by (by apply rmatch_dot_digits_end). done.
  - rewrite append_cons. cbn [Re.suffixes existsb]. rewrite IH.
    apply orb_true_r.
Qed.

(** X7. An interface made from a name without a dot and a tag of digits is
    stored under the name followed by a dot and the tag; making an
    interface from that stored name alone, with no tag, gives the same
    object (without [apply_changes], nothing is sent). *)
Theorem init_name_tag_round_trip (n t type_ mode_ : string)
    (zone_ : option string) (subnets_ : subnets_arg)
    (router_ pan_device_ : option string) (parent_ : option Interface)
    (state_ : option string) (dev : PanDevice) :
  "."%char ∉ list_ascii_of_string n ->
  Re.digit_run t = String.length t -> t <> "" ->
  exists i,
    __init__ (Some n) type_ mode_ (Some t) zone_ subnets_ router_ pan_device_
      false parent_ state_ dev = (dev, Ok i)
    /\ name i = Some (n ++ "." ++ t) /\ _tag i = Some t
    /\ __init__ (name i) type_ mode_ None zone_ subnets_ router_ pan_device_
         false parent_ state_ dev = (dev, Ok i).
Proof.
  intros Hn Ht Hne. eexists.
  unfold __init__, subnets_setter, tag_setter, when, lift, mbind, M_bind, mret, M_ret.
  unfold with_name, with_state, with_subnets, with_tag.
  remember (Re.search re_dot_digits_end) as found eqn:Hfound.
  remember (Re.split ".") as split_dot eqn:Hsplit. cbn.
  assert (found n = false) as -> by (subst; by apply search_no_dot).
  cbn. split; [reflexivity|]. split; [done|]. split; [done|].
  cbn. change (n ++ "." ++ t) with (n ++ String "." t).
  assert (found (n ++ String "." t) = true) as ->
    by (subst; by apply search_dot_digits_suffix).
  assert (split_dot (n ++ String "." t) = [n; t]) as ->.
  { subst. rewrite split_app_sep by done. f_equal.
    apply split_no_dot. by apply digits_no_dot. }
  done.
Qed.

(** X8. What construction sends to the device is what [apply] sends for the
    interface as given, before the name and the tag are normalized, and
    only with [apply_changes]: an interface given a tag is therefore
    applied under the name without the tag.  When that [apply] raises, so
    does the construction. *)
Theorem init_applies_interface_as_given (name_ : option string)
    (type_ mode_ : string) (tag_ zone_ : option string) (subnets_ : subnets_arg)
    (router_ pan_device_ : option string) (apply_changes_ : bool)
    (parent_ : option Interface) (state_ : option string) (dev : PanDevice) :
  let given :=
    (subnets_setter subnets_
       (tag_setter tag_
          (mkInterface name_ type_ mode_ None zone_ router_ parent_ []
             apply_changes_ pan_device_ [] None))).1 in
  let made := __init__ name_ type_ mode_ tag_ zone_ subnets_ router_ pan_device_
                apply_changes_ parent_ state_ dev in
  name given = name_ /\ _tag given = tag_
  /\ made.1 = (if apply_changes_ then (apply given dev).1 else dev)
  /\ (forall e, apply_changes_ = true -> (apply given dev).2 = Raise e ->
        made.2 = Raise e).
Proof.
  intros given made. subst given made.
  unfold __init__, subnets_setter, tag_setter, when, lift, mbind, M_bind, mret, M_ret.
  unfold with_name, with_state, with_subnets, with_tag.
  remember (Re.search re_dot_digits_end) as found eqn:Hfound.
  remember (Re.split ".") as split_dot eqn:Hsplit. cbn.
  do 2 (split; [done|]).
  destruct apply_changes_; cbn.
  - match goal with |- context [apply ?g dev] =>
      destruct (apply g dev) as [dev' [[]|e]] end; cbn.
    + split; [|done]. repeat (case_match; cbn; try done).
    + split; [done|]. by intros e' _ [= <-].
  - split; [|done]. repeat (case_match; cbn; try done).
Qed.

(** * Further properties of panorama.py *)

(** ** commit_all *)

(** X9. When a command is given, [commit_all] neither reads the device-group
    nor the serials: the same commit is submitted whatever they are.  A
    string is submitted as it is, a [PanCommit] as its [cmd()]; the
    commit is a commit-all in every case. *)
Theorem commit_all_given_cmd (sync sync_all exception : bool)
    (devicegroup devicegroup' : option string) (serials serials' : list string)
    (cmd : cmd_arg) :
  cmd <> CmdNone ->
  commit_all sync sync_all exception devicegroup serials cmd
  = commit_all sync sync_all exception devicegroup' serials' cmd
  /\ commit_all sync sync_all exception devicegroup serials cmd
     = match cmd with
       | CmdStr s => _commit sync sync_all true exception s
       | CmdPanCommit c => _commit sync sync_all true exception (PanCommit_cmd c)
       | CmdElement e => s ← tostring e; _commit sync sync_all true exception s
       | CmdNone => Raise TypeError
       end.
Proof. by destruct cmd. Qed.

(** ** refresh_devices: which memberships are looked at *)

Lemma mapM_req_vsys_ok (devices : list requested) (l : list (option string)) :
  mapM req_vsys devices = Ok l <->
  Forall2 (fun d v => exists s, d = ReqFirewall s v) devices l.
Proof.
  revert l. induction devices as [|d devices IH]; intros l; cbn.
  - split.
    + intros [= <-]. constructor.
    + by intros ->%Forall2_nil_inv_l.
  - split.
    + destruct d as [s|s v]; cbn; [done|].
      destruct (mapM req_vsys devices) as [l'|] eqn:E; cbn; [|done].
      intros [= <-]. constructor; [by eexists|]. by apply IH.
    + intros (v & l' & [s ->] & H & ->)%Forall2_cons_inv_l.
      apply IH in H. cbn. by rewrite H.
Qed.

Lemma mapM_req_vsys_raise (devices : list requested) :
  is_ok (mapM req_vsys devices) = false <-> exists s, ReqSerial s ∈ devices.
Proof.
  induction devices as [|d devices IH]; cbn.
  - split; [done|]. intros [s H]. by apply elem_of_nil in H.
  - destruct d as [s|s v]; cbn.
    + split; [|done]. intros _. exists s. by left.
    + destruct (mapM req_vsys devices) as [l'|]; cbn in *.
      * split; [done|]. intros [s' [H|H]%elem_of_cons]; [done|].
        apply IH. by exists s'.
      * split; [|done]. intros _. destruct IH as [[s' H] _]; [done|].
        exists s'. by right.
Qed.

(** X10. A declared vsys of a member is passed over exactly when devices were
    asked for, each of them carries a vsys, none of these is [None] or
    ["shared"], and none is the declared one.  One plain serial among the
    devices asked for, or one with the vsys [None] or ["shared"], switches
    the vsys filter off for every serial. *)
Theorem vsys_skipped_iff (devices : list requested) (dg_vsys : option string) :
  vsys_skipped devices dg_vsys = true <->
  devices <> []
  /\ forall d, d ∈ devices ->
       exists s v, d = ReqFirewall s (Some v) /\ v <> "shared" /\ Some v <> dg_vsys.
Proof.
  unfold vsys_skipped. case_bool_decide as Hnil.
  - split; [done|]. by intros [? _].
  - destruct (mapM req_vsys devices) as [l|e] eqn:E.
    + apply mapM_req_vsys_ok in E.
      rewrite !andb_true_iff, !bool_decide_eq_true. split.
      * intros [[Hshared Hnone] Hv]. split; [done|]. intros d Hd.
        apply list_elem_of_lookup in Hd as [k Hk].
        destruct (Forall2_lookup_l _ _ _ _ _ E Hk) as (v & Hv' & s & ->).
        apply list_elem_of_lookup_2 in Hv'.
        destruct v as [v|]; [|done]. exists s, v. split; [done|].
        split; [by intros ->|]. by intros <-.
      * intros [_ H]. split; [split|].
        -- intros [k Hk]%list_elem_of_lookup.
           destruct (Forall2_lookup_r _ _ _ _ _ E Hk) as (d & Hd & s & ->).
           apply list_elem_of_lookup_2, H in Hd as (?&?&[= <- <-]&?&?). done.
        -- intros [k Hk]%list_elem_of_lookup.
           destruct (Forall2_lookup_r _ _ _ _ _ E Hk) as (d & Hd & s & ->).
           apply list_elem_of_lookup_2, H in Hd as (?&?&[=]&?&?).
        -- intros [k Hk]%list_elem_of_lookup.
           destruct (Forall2_lookup_r _ _ _ _ _ E Hk) as (d & Hd & s & ->).
           apply list_elem_of_lookup_2, H in Hd as (?&?&[= <- <-]&?&?). done.
    + split; [done|]. intros [_ H].
      assert (is_ok (mapM req_vsys devices) = false) as Hr by (by rewrite E).
      apply mapM_req_vsys_raise in Hr as [s Hs].
      by apply H in Hs as (?&?&?&_).
Qed.

(** ** refresh_devices: moving the firewalls into their device-groups *)

Lemma attached_refl (only_connected : bool) (st : list Firewall * DeviceGroup) :
  attached only_connected st st.
Proof.
  split; [done|]. do 2 (split; [done|]). exists []. cbn.
  rewrite app_nil_r. split; [done|]. split; [lia|]. intros _. lia.
Qed.

Lemma attached_trans (only_connected : bool)
    (st1 st2 st3 : list Firewall * DeviceGroup) :
  attached only_connected st1 st2 -> attached only_connected st2 st3 ->
  attached only_connected st1 st3.
Proof.
  intros (S1 & N1 & T1 & a1 & C1 & L1 & E1) (S2 & N2 & T2 & a2 & C2 & L2 & E2).
  split; [by etrans|]. split; [congruence|]. split; [congruence|].
  exists (a1 ++ a2)%list. rewrite C2, C1, fmap_app, <-app_assoc, length_app.
  split; [done|]. split; [lia|]. intros H. specialize (E1 H). specialize (E2 H). lia.
Qed.

Lemma find_firewall_lookup (s v : option string) (l : list Firewall)
    (i : nat) (fw : Firewall) :
  find_firewall s v l = Some (i, fw) -> l !! i = Some fw.
Proof.
  revert i. induction l as [|x l IH]; intros i; cbn; [done|].
  destruct (fw_matches s v x); [by intros [= <- <-]|].
  destruct (find_firewall s v l) as [[j y]|]; cbn; [|done].
  intros [= <- <-]. cbn. by apply IH.
Qed.

Lemma attach_member_attached (only_connected : bool) (fw_entry : option element)
    (s v : option string) (st st' : list Firewall * DeviceGroup) :
  attach_member only_connected fw_entry s v st = Ok st' ->
  attached only_connected st st'.
Proof.
  destruct st as [fws dg]. unfold attach_member.
  destruct (find_firewall s v fws) as [[i fw]|] eqn:Hfind.
  - destruct fw_entry as [fe|]; [|done].
    destruct (set_shared_policy_synced _ fw) as [fw'|]; [|done].
    cbn. intros [= <-]. split; [apply sublist_delete|].
    do 2 (split; [done|]). exists [fw']. cbn. split; [done|].
    apply find_firewall_lookup, lookup_lt_Some in Hfind.
    rewrite length_delete by (by apply lookup_lt_is_Some_2). cbn.
    split; [lia|]. intros _. lia.
  - destruct only_connected; intros [= <-]; [apply attached_refl|].
    split; [done|]. do 2 (split; [done|]).
    exists [FIREWALL_CLASS s v]. cbn. split; [done|]. split; [lia|done].
Qed.

Lemma attach_vsys_attached (devices : list requested) (only_connected : bool)
    (fw_entry : option element) (s : option string) (vl : list (option string))
    (st st' : list Firewall * DeviceGroup) :
  attach_vsys devices only_connected fw_entry s vl st = Ok st' ->
  attached only_connected st st'.
Proof.
  revert st. induction vl as [|v vl IH]; intros st; cbn.
  - intros [= <-]. apply attached_refl.
  - destruct (vsys_skipped devices v); cbn; [apply IH|].
    destruct (attach_member _ _ _ v st) as [st1|] eqn:H1; cbn; [|done].
    intros H2. eapply attached_trans; [by eapply attach_member_attached|by apply IH].
Qed.

Lemma attach_serials_attached (devices : list requested) (only_connected : bool)
    (cfg : element) (serials : list (option string))
    (st st' : list Firewall * DeviceGroup) :
  attach_serials devices only_connected cfg serials st = Ok st' ->
  attached only_connected st st'.
Proof.
  revert st. induction serials as [|s serials IH]; intros st; cbn.
  - intros [= <-]. apply attached_refl.
  - destruct (attach_serial _ _ _ s st) as [st1|] eqn:H1; cbn; [|done].
    intros H2. eapply attached_trans; [|by apply IH].
    unfold attach_serial in H1. destruct (serial_skipped devices s).
    + injection H1 as <-. apply attached_refl.
    + by eapply attach_vsys_attached.
Qed.

Lemma attach_groups_attached (devices : list requested) (only_connected : bool)
    (cfg : option element) (dgs : list DeviceGroup) (fws : list Firewall)
    (r : list Firewall * list DeviceGroup) :
  attach_groups devices only_connected cfg dgs fws = Ok r ->
  r.1 `sublist_of` fws
  /\ Forall2 (fun dg dg' =>
                dg_name dg' = dg_name dg /\ dg_tag dg' = dg_tag dg
                /\ exists added,
                     dg_children dg' = (dg_children dg ++ (ChildFirewall <$> added))%list)
       dgs r.2
  /\ length fws + length (dgs ≫= dg_children)
     <= length r.1 + length (r.2 ≫= dg_children)
  /\ (only_connected = true ->
      length fws + length (dgs ≫= dg_children)
      = length r.1 + length (r.2 ≫= dg_children)).
Proof.
  revert fws r. induction dgs as [|dg dgs IH]; intros fws r; cbn.
  - intros [= <-]. cbn. split; [done|]. split; [constructor|]. split; [lia|done].
  - destruct cfg as [cfg'|]; [|done].
    destruct (attach_serials _ _ _ _ (fws, dg)) as [st|] eqn:H1; cbn; [|done].
    destruct (attach_groups _ _ _ dgs st.1) as [r'|] eqn:H2; cbn; [|done].
    intros [= <-]. cbn.
    apply attach_serials_attached in H1 as (S1 & N1 & T1 & a1 & C1 & L1 & E1).
    apply IH in H2 as (S2 & F2 & L2 & E2). cbn in *.
    split; [by etrans|]. split; [constructor; [|done]|].
    { do 2 (split; [done|]). by exists a1. }
    rewrite !length_app, C1, length_app, length_fmap.
    split; [lia|]. intros H. specialize (E1 H). specialize (E2 H). lia.
Qed.

(** X11. The membership loop keeps the device-groups as they were built, in
    number, order, name and tag; each keeps the children it had and gets
    only firewalls, at the end.  The firewalls left over are among those
    built from the device list, in their order. *)
Theorem attach_groups_structure (devices : list requested) (only_connected : bool)
    (cfg : option element) (dgs : list DeviceGroup) (fws : list Firewall)
    (r : list Firewall * list DeviceGroup) :
  attach_groups devices only_connected cfg dgs fws = Ok r ->
  r.1 `sublist_of` fws
  /\ dg_name <$> r.2 = dg_name <$> dgs
  /\ dg_tag <$> r.2 = dg_tag <$> dgs
  /\ Forall2 (fun dg dg' =>
                exists added,
                  dg_children dg' = (dg_children dg ++ (ChildFirewall <$> added))%list)
       dgs r.2.
Proof.
  intros (S & F & _)%attach_groups_attached. split; [done|].
  induction F as [|dg dg' l l' (N & T & A) F IH]; [by repeat split; try constructor|].
  destruct IH as (IH1 & IH2 & IH3). cbn.
  split; [by f_equal|]. split; [by f_equal|]. by constructor.
Qed.

(** X12. No firewall is lost in the membership loop: for each firewall taken
    out of the list built from the device list, a child is added to a
    device-group.  When only connected devices are looked at nothing else
    is added, so the firewalls left over and the children of the
    device-groups are as many as the firewalls built and the children the
    device-groups had. *)
Theorem attach_groups_conservation (devices : list requested) (only_connected : bool)
    (cfg : option element) (dgs : list DeviceGroup) (fws : list Firewall)
    (r : list Firewall * list DeviceGroup) :
  attach_groups devices only_connected cfg dgs fws = Ok r ->
  length fws + length (dgs ≫= dg_children)
  <= length r.1 + length (r.2 ≫= dg_children)
  /\ (only_connected = true ->
      length r.1 + length (r.2 ≫= dg_children)
      = length fws + length (dgs ≫= dg_children)).
Proof.
  intros (_ & _ & L & E)%attach_groups_attached. split; [done|].
  intros H. by rewrite E.
Qed.

(** ** refresh_devices: the list returned and the tree *)

Lemma add_devicegroups_length (addrs : list nat) (self : Panorama) :
  length (pan_heap (fold_left add_devicegroup addrs self)) = length (pan_heap self).
Proof.
  revert self. induction addrs as [|a addrs IH]; intros self; [done|].
  cbn. by rewrite IH, add_devicegroup_length.
Qed.

(** X13. What [refresh_devices] returns is a list of firewalls followed by
    device-groups.  The device-groups are new objects, one after the other
    behind those that existed, and none without [include_device_groups].
    Without [add] the tree is left alone: the children of the root and the
    device-groups that existed are as before.  With [add] the firewalls
    among the children of the root are afterwards exactly the firewalls
    returned. *)
Theorem refresh_devices_returns (devices : list (option requested))
    (only_connected expand_vsys include_device_groups add running_config : bool)
    (self : Panorama) (r : Panorama * list child) :
  refresh_devices devices only_connected expand_vsys include_device_groups add
    running_config self = Ok r ->
  exists (fws : list Firewall) (dgs : list DeviceGroup),
    r.2 = ((ChildFirewall <$> fws)
           ++ (ChildDeviceGroup <$> seq (length (pan_heap self)) (length dgs)))%list
    /\ length (pan_heap r.1) = length (pan_heap self) + length dgs
    /\ (include_device_groups = false -> dgs = [] /\ pan_heap r.1 = pan_heap self)
    /\ (add = false ->
        pan_children r.1 = pan_children self
        /\ pan_heap r.1 = (pan_heap self ++ dgs)%list)
    /\ (add = true ->
        List.filter is_firewall (pan_children r.1) = ChildFirewall <$> fws).
Proof.
  unfold refresh_devices.
  destruct (op (if only_connected then _ else _)) as [x1|]; cbn; [|done].
  destruct (requested_devices_xml _ _ _) as [x2|]; cbn; [|done].
  destruct (expanded_devices_xml _ _) as [x3|]; cbn; [|done].
  destruct (fw_refreshall_from_xml _ _) as [fws|]; cbn; [|done].
  destruct include_device_groups; cbn.
  - destruct ((if running_config then xapi_show else xapi_get) _) as [x4|];
      cbn; [|done].
    destruct (op "show devicegroups") as [x5|]; cbn; [|done].
    destruct (combine_views _ _) as [x6|]; cbn; [|done].
    destruct (dg_refreshall_from_xml _ _) as [dgs|]; cbn; [|done].
    destruct (attach_groups _ _ _ _ _) as [[fws' dgs']|]; cbn; [|done].
    intros [= <-]. exists fws', dgs'. cbn. split; [done|].
    split; [|split; [done|split]].
    + destruct add; cbn; [|by rewrite length_app].
      unfold add_to_tree, replace_firewalls. cbn.
      rewrite add_devicegroups_length. cbn. by rewrite length_app.
    + by intros ->.
    + intros ->. unfold add_to_tree, replace_firewalls, extend. cbn.
      by rewrite List.filter_app, filter_firewalls_removeall, filter_firewalls_fmap.
  - intros [= <-]. exists fws, []. cbn. rewrite app_nil_r.
    split; [done|]. split; [by destruct add; cbn; lia|].
    split; [by destruct add|]. split.
    + intros ->. by rewrite app_nil_r.
    + intros ->. unfold replace_firewalls, extend. cbn.
      by rewrite List.filter_app, filter_firewalls_removeall, filter_firewalls_fmap.
Qed.

(** ** refresh_devices: devices asked for by serial number alone *)

Lemma filter_devices_plain (only_connected : bool) (devices_xml filtered f : element)
    (serials : list string) :
  filter_devices only_connected devices_xml filtered (ReqSerial <$> serials) = Ok f ->
  f = filtered.
Proof.
  induction serials as [|s serials IH]; cbn; [by intros [= <-]|].
  unfold filter_device at 1. cbn.
  destruct (find _ devices_xml) as [entry|]; cbn; [|done].
  destruct (yesno _) as [multi_vsys|]; cbn; [|done]. apply IH.
Qed.

Lemma omap_id_Some {A B} (f : A -> B) (l : list A) :
  omap id ((Some ∘ f) <$> l) = f <$> l.
Proof. induction l as [|x l IH]; [done|]. cbn. by rewrite IH. Qed.

(** X14. A device asked for by its serial number alone, a string without a
    [vsys], is looked up in the device list and then passed over, so
    that nothing of the device list is kept: when all the devices asked
    for are such, the firewalls are built from an empty [devices] element,
    whatever the device list holds.  The firewalls returned at the top
    are among those built from it, and are all of them without
    [include_device_groups]. *)
Theorem plain_serials_empty_device_list (serials : list string)
    (only_connected expand_vsys include_device_groups add running_config : bool)
    (self : Panorama) (r : Panorama * list child) :
  serials <> [] ->
  refresh_devices ((Some ∘ ReqSerial) <$> serials) only_connected expand_vsys
    include_device_groups add running_config self = Ok r ->
  exists fws left,
    fw_refreshall_from_xml (Some (Element "devices" [] None [])) (negb expand_vsys)
    = Ok fws
    /\ left `sublist_of` fws
    /\ List.filter is_firewall r.2 = ChildFirewall <$> left
    /\ (include_device_groups = false -> left = fws).
Proof.
  intros Hne. unfold refresh_devices. rewrite omap_id_Some.
  destruct (op (if only_connected then _ else _)) as [x1|]; cbn; [|done].
  unfold requested_devices_xml.
  rewrite bool_decide_eq_false_2 by (by destruct serials).
  destruct (find _ x1) as [devices_xml|]; cbn; [|done].
  destruct (filter_devices _ _ _ _) as [f|] eqn:Hf; cbn; [|done].
  apply filter_devices_plain in Hf as ->.
  assert (expanded_devices_xml expand_vsys (Some (Element "devices" [] None []))
          = Ok (Some (Element "devices" [] None []))) as ->
    by (by destruct expand_vsys).
  cbn. destruct (fw_refreshall_from_xml _ _) as [fws|]; cbn; [|done].
  destruct include_device_groups; cbn.
  - destruct ((if running_config then xapi_show else xapi_get) _) as [x4|];
      cbn; [|done].
    destruct (op "show devicegroups") as [x5|]; cbn; [|done].
    destruct (combine_views _ _) as [x6|]; cbn; [|done].
    destruct (dg_refreshall_from_xml _ _) as [dgs|]; cbn; [|done].
    destruct (attach_groups _ _ _ _ _) as [[fws' dgs']|] eqn:Hg; cbn; [|done].
    intros [= <-]. exists fws, fws'. cbn. split; [done|].
    apply attach_groups_attached in Hg as (Hsub & _). split; [done|].
    split; [|done]. rewrite List.filter_app, filter_firewalls_fmap.
    generalize (seq (length (pan_heap self)) (length dgs')). intros l.
    replace (List.filter is_firewall (ChildDeviceGroup <$> l)) with (@nil child);
      [by rewrite app_nil_r|].
    induction l as [|a l IH]; [done|]. by cbn.
  - intros [= <-]. exists fws, fws. cbn. split; [done|]. split; [done|].
    by rewrite filter_firewalls_fmap.
Qed.

(** ** refresh_devices: the configuration and the status of the device-groups *)

Lemma with_children_id (e : element) : with_children (children e) e = e.
Proof. by destruct e. Qed.

Lemma find_step (s : step) (e : element) :
  find [s] e = head (List.filter (step_match s) (children e)).
Proof. unfold find, findall, findall_from, select. cbn. by rewrite app_nil_r. Qed.

Lemma replace_first_tag_found (t : string) (d : element) (cs : list element) :
  head (List.filter (step_match (Tag t)) cs) = Some d ->
  replace_first_tag t d cs = cs.
Proof.
  induction cs as [|c cs IH]; cbn; [done|].
  destruct (decide (tag c = t)) as [Ht|Ht].
  - rewrite bool_decide_eq_true_2 by done. cbn. by intros [= ->].
  - rewrite bool_decide_eq_false_2 by done. intros H. by rewrite IH.
Qed.

Lemma mapM_result_id {A} (f : A -> result A) (l : list A) :
  (forall x, x ∈ l -> f x = Ok x) -> mapM f l = Ok l.
Proof.
  induction l as [|x l IH]; intros H; [done|].
  cbn. rewrite H by left. cbn. rewrite IH; [done|].
  intros y Hy. apply H. by right.
Qed.

Lemma mapM_result_raise {A B} (f : A -> result B) (e : exn) (l : list A) :
  l <> [] -> (forall x, x ∈ l -> f x = Raise e) -> mapM f l = Raise e.
Proof.
  destruct l as [|x l]; [done|]. intros _ H. cbn. by rewrite H by left.
Qed.

(** X15. When the response to [show devicegroups] has no [devicegroups]
    element, merging the two views raises [AttributeError] as soon as a
    device-group has a member, and otherwise leaves the configuration as
    it is. *)
Theorem combine_views_without_status (cfg : element) :
  combine_views (Some cfg) None
  = if forallb (fun g => match find [Tag "devices"] g with
                         | Some devices => bool_decide (children devices = [])
                         | None => true
                         end) (children cfg)
    then Ok (Some cfg) else Raise AttributeError.
Proof.
  unfold combine_views.
  assert (forall gs,
    mapM (combine_group None) gs
    = if forallb (fun g => match find [Tag "devices"] g with
                           | Some devices => bool_decide (children devices = [])
                           | None => true
                           end) gs
      then Ok gs else Raise AttributeError) as ->.
  { induction gs as [|g gs IH]; [done|]. cbn. rewrite IH.
    unfold combine_group at 1.
    destruct (find [Tag "devices"] g) as [d|] eqn:Hd; cbn.
    - destruct (children d) as [|m ms] eqn:Hms; cbn.
      + assert (with_children [] d = d) as ->
          by (destruct d; cbn in Hms; by subst).
        rewrite find_step in Hd. rewrite replace_first_tag_found by done.
        rewrite with_children_id. by destruct (forallb _ gs).
      + done.
    - by destruct (forallb _ gs). }
  destruct (forallb _ _); cbn; [|done]. by rewrite with_children_id.
Qed.

(** X16. A member of a device-group that has no entry in the status of the
    device-groups is left as it is; when that holds for every member of
    every device-group, the merged view is the configuration, whatever
    [xml_combine] does. *)
Theorem combine_views_no_status_entry (cfg opxml : element) :
  (forall g devices m,
     g ∈ children cfg -> find [Tag "devices"] g = Some devices ->
     m ∈ children devices ->
     find [Tag "entry"; Tag "devices"; TagName "entry" (pystr (get "name" m))] opxml
     = None) ->
  combine_views (Some cfg) (Some opxml) = Ok (Some cfg).
Proof.
  intros H. unfold combine_views.
  rewrite mapM_result_id; [cbn; by rewrite with_children_id|].
  intros g Hg. unfold combine_group.
  destruct (find [Tag "devices"] g) as [d|] eqn:Hd; [|done].
  rewrite mapM_result_id; cbn.
  - rewrite with_children_id. rewrite find_step in Hd.
    by rewrite replace_first_tag_found, with_children_id.
  - intros m Hm. unfold combine_member. by rewrite (H g d m).
Qed.

Lemma mapM_result_Forall2 {A B} (f : A -> result B) (l : list A) (k : list B) :
  mapM f l = Ok k -> Forall2 (fun x y => f x = Ok y) l k.
Proof.
  revert k. induction l as [|x l IH]; intros k; cbn.
  - intros [= <-]. constructor.
  - destruct (f x) as [y|] eqn:Hy; cbn; [|done].
    destruct (mapM f l) as [k'|]; cbn; [|done].
    intros [= <-]. constructor; [done|]. by apply IH.
Qed.

Lemma Forall2_diag {A} (P : A -> A -> Prop) (l : list A) :
  (forall x, P x x) -> Forall2 P l l.
Proof. intros H. induction l; by constructor. Qed.

Lemma replace_first_tag_Forall2 (t : string) (d d' : element) (cs : list element) :
  head (List.filter (step_match (Tag t)) cs) = Some d ->
  Forall2 (fun x x' => x' = x \/ (x = d /\ x' = d')) cs
    (replace_first_tag t d' cs).
Proof.
  induction cs as [|c cs IH]; cbn; [constructor|].
  destruct (decide (tag c = t)).
  - rewrite bool_decide_eq_true_2 by done. cbn. intros [= ->].
    constructor; [by right|]. apply Forall2_diag. by left.
  - rewrite bool_decide_eq_false_2 by done. intros H.
    constructor; [by left|by apply IH].
Qed.

(** X17. Merging the status into the configuration keeps the device-groups: the
    merged view has the tag, the attributes and the text of the
    configuration, and as many entries, each with the tag, the attributes
    (so the name) and the text it had.  Within an entry only a [devices]
    child is replaced, by one with the same attributes and as many
    members. *)
Theorem combine_views_keeps_groups (devicegroup_configxml devicegroup_opxml
    merged : option element) :
  combine_views devicegroup_configxml devicegroup_opxml = Ok merged ->
  match devicegroup_configxml, merged with
  | None, None => True
  | Some cfg, Some cfg' =>
      tag cfg' = tag cfg /\ attrib cfg' = attrib cfg /\ text cfg' = text cfg
      /\ Forall2
           (fun g g' =>
              tag g' = tag g /\ attrib g' = attrib g /\ text g' = text g
              /\ Forall2
                   (fun x x' =>
                      x' = x
                      \/ (tag x = "devices" /\ tag x' = "devices"
                          /\ attrib x' = attrib x /\ text x' = text x
                          /\ length (children x') = length (children x)))
                   (children g) (children g'))
           (children cfg) (children cfg')
  | _, _ => False
  end.
Proof.
  unfold combine_views. destruct devicegroup_configxml as [cfg|];
    [|by intros [= <-]].
  destruct (mapM _ (children cfg)) as [groups|] eqn:Hg; cbn; [|done].
  intros [= <-]. do 3 (split; [done|]). cbn.
  apply mapM_result_Forall2 in Hg.
  eapply Forall2_impl; [exact Hg|]. cbn. intros g g'. unfold combine_group.
  destruct (find [Tag "devices"] g) as [d|] eqn:Hd.
  - destruct (mapM _ (children d)) as [members|] eqn:Hm; cbn; [|done].
    intros [= <-]. cbn. do 3 (split; [done|]).
    rewrite find_step in Hd.
    assert (tag d = "devices") as Htag.
    { apply head_Some_elem_of, list_elem_of_In, List.filter_In in Hd as [_ Hd].
      cbn in Hd. by apply bool_decide_eq_true in Hd. }
    eapply Forall2_impl; [by apply replace_first_tag_Forall2|].
    cbn. intros x x' [->|[-> ->]]; [by left|]. right. cbn.
    do 4 (split; [done|]).
    apply mapM_result_Forall2, Forall2_length in Hm. done.
  - intros [= <-]. do 3 (split; [done|]). apply Forall2_diag. by left.
Qed.

(** ** refresh_devices: the children a device-group gets *)

Lemma find_firewall_matches (s v : option string) (l : list Firewall)
    (i : nat) (fw : Firewall) :
  find_firewall s v l = Some (i, fw) -> serial fw = s /\ vsys fw = v.
Proof.
  revert i. induction l as [|x l IH]; intros i; cbn; [done|].
  destruct (fw_matches s v x) eqn:Hx.
  - intros [= <- <-]. unfold fw_matches in Hx.
    apply andb_true_iff in Hx as [H1 H2].
    by apply bool_decide_eq_true in H1, H2.
  - destruct (find_firewall s v l) as [[j y]|]; cbn; [|done].
    intros [= <- <-]. by eapply IH.
Qed.

Lemma member_child_sublist (only_connected : bool) (l l' : list Firewall)
    (m : option string * option string) (fw' : Firewall) :
  l' `sublist_of` l -> member_child only_connected l' m fw' ->
  member_child only_connected l m fw'.
Proof.
  intros Hsub [H|(fw & status & Hin & H)]; [by left|].
  right. exists fw, status. split; [|done]. by eapply elem_of_sublist.
Qed.

Lemma attach_vsys_children (devices : list requested) (only_connected : bool)
    (fw_entry : option element) (s : option string) (vl : list (option string))
    (st st' : list Firewall * DeviceGroup) :
  attach_vsys devices only_connected fw_entry s vl st = Ok st' ->
  exists kept added,
    dg_children st'.2 = (dg_children st.2 ++ (ChildFirewall <$> added))%list
    /\ kept `sublist_of`
         ((fun v => (s, v)) <$>
          List.filter (fun v => negb (vsys_skipped devices v)) vl)
    /\ (only_connected = false ->
        kept = (fun v => (s, v)) <$>
               List.filter (fun v => negb (vsys_skipped devices v)) vl)
    /\ Forall2 (member_child only_connected st.1) kept added.
Proof.
  revert st. induction vl as [|v vl IH]; intros st; cbn.
  - intros [= <-]. exists [], []. cbn. rewrite app_nil_r.
    repeat split; [done|constructor].
  - destruct (vsys_skipped devices v); cbn; [apply IH|].
    destruct (attach_member _ _ _ v st) as [st1|] eqn:H1; cbn; [|done].
    intros H2. pose proof (attach_member_attached _ _ _ _ _ _ H1) as (S1 & _).
    apply IH in H2 as (kept & added & C2 & K2 & E2 & F2).
    assert (Forall2 (member_child only_connected st.1) kept added) as F2'.
    { eapply Forall2_impl; [exact F2|]. intros m fw'.
      by apply member_child_sublist. }
    clear F2. destruct st as [fws dg]. unfold attach_member in H1.
    destruct (find_firewall s v fws) as [[i fw]|] eqn:Hfind.
    + destruct fw_entry as [fe|]; [|done].
      destruct (set_shared_policy_synced _ fw) as [fw'|] eqn:Hset; [|done].
      cbn in H1. injection H1 as <-. cbn in *.
      exists ((s, v) :: kept), (fw' :: added).
      split; [rewrite C2; unfold dg_add, add; cbn; by rewrite <- (assoc_L (++))|].
      split; [by apply sublist_skip|]. split; [by intros ->%E2|].
      constructor; [|done]. right. eexists fw, _.
      split; [by eapply list_elem_of_lookup_2, find_firewall_lookup|].
      by apply find_firewall_matches in Hfind as [? ?].
    + destruct only_connected; injection H1 as <-; cbn in *.
      * exists kept, added. split; [done|]. split; [by apply sublist_cons|].
        split; [done|done].
      * exists ((s, v) :: kept), (FIREWALL_CLASS s v :: added).
        split; [rewrite C2; unfold dg_add, add; cbn; by rewrite <- (assoc_L (++))|].
        split; [by apply sublist_skip|]. split; [by intros ->%E2|].
        constructor; [by left|done].
Qed.

Lemma memberships_name (devices : list requested) (cfg : element)
    (d1 d2 : DeviceGroup) :
  dg_name d1 = dg_name d2 -> memberships devices cfg d1 = memberships devices cfg d2.
Proof.
  intros H. unfold memberships, dg_serials. rewrite H.
  apply flat_map_ext. intros s. by rewrite (all_dg_vsys_name cfg d1 d2 s H).
Qed.

Lemma attach_serials_children (devices : list requested) (only_connected : bool)
    (cfg : element) (serials : list (option string))
    (st st' : list Firewall * DeviceGroup) :
  attach_serials devices only_connected cfg serials st = Ok st' ->
  let looked_at :=
    flat_map
      (fun s =>
         if serial_skipped devices s then []
         else (fun v => (s, v)) <$>
              List.filter (fun v => negb (vsys_skipped devices v))
                (all_dg_vsys cfg st.2 s))
      serials in
  exists kept added,
    dg_children st'.2 = (dg_children st.2 ++ (ChildFirewall <$> added))%list
    /\ kept `sublist_of` looked_at
    /\ (only_connected = false -> kept = looked_at)
    /\ Forall2 (member_child only_connected st.1) kept added.
Proof.
  revert st. induction serials as [|s serials IH]; intros st; cbn.
  - intros [= <-]. exists [], []. cbn. rewrite app_nil_r.
    repeat split; [done|constructor].
  - destruct (attach_serial _ _ _ s st) as [st1|] eqn:H1; cbn; [|done].
    intros H2.
    assert (attached only_connected st st1) as (S1 & N1 & _).
    { unfold attach_serial in H1. destruct (serial_skipped devices s).
      - injection H1 as <-. apply attached_refl.
      - by eapply attach_vsys_attached. }
    apply IH in H2 as (kept2 & added2 & C2 & K2 & E2 & F2). cbn in K2, E2.
    assert (Forall2 (member_child only_connected st.1) kept2 added2) as F2'.
    { eapply Forall2_impl; [exact F2|]. intros m fw'.
      by apply member_child_sublist. }
    clear F2.
    erewrite flat_map_ext in K2, E2
      by (intros a; rewrite (all_dg_vsys_name cfg st1.2 st.2 a N1); reflexivity).
    unfold attach_serial in H1. destruct (serial_skipped devices s).
    + injection H1 as <-. exists kept2, added2. by cbn.
    + apply attach_vsys_children in H1 as (kept1 & added1 & C1 & K1 & E1 & F1).
      exists (kept1 ++ kept2)%list, (added1 ++ added2)%list.
      split; [by rewrite C2, C1, fmap_app, <- (assoc_L (++))|].
      split; [by apply sublist_app|].
      split; [intros H; by rewrite E1, E2|]. by apply Forall2_app.
Qed.

Lemma attach_groups_members (devices : list requested) (only_connected : bool)
    (cfg : element) (dgs : list DeviceGroup) (fws : list Firewall)
    (r : list Firewall * list DeviceGroup) :
  attach_groups devices only_connected (Some cfg) dgs fws = Ok r ->
  Forall2
    (fun dg dg' =>
       exists kept added,
         dg_children dg' = (dg_children dg ++ (ChildFirewall <$> added))%list
         /\ kept `sublist_of` memberships devices cfg dg
         /\ (only_connected = false -> kept = memberships devices cfg dg)
         /\ Forall2 (member_child only_connected fws) kept added)
    dgs r.2.
Proof.
  revert fws r. induction dgs as [|dg dgs IH]; intros fws r; cbn.
  - intros [= <-]. constructor.
  - destruct (attach_serials _ _ _ _ (fws, dg)) as [st|] eqn:H1; cbn; [|done].
    destruct (attach_groups _ _ _ dgs st.1) as [r'|] eqn:H2; cbn; [|done].
    intros [= <-]. cbn.
    pose proof (attach_serials_attached _ _ _ _ _ _ H1) as (S1 & _).
    apply attach_serials_children in H1 as (kept & added & C1 & K1 & E1 & F1).
    apply IH in H2. constructor.
    + exists kept, added. by cbn in *.
    + eapply Forall2_impl; [exact H2|]. cbn.
      intros d d' (kept' & added' & C & K & E & F).
      exists kept', added'. do 3 (split; [done|]).
      eapply Forall2_impl; [exact F|]. intros m fw'.
      by apply member_child_sublist.
Qed.

(** ** refresh_devices: the device list limited to the devices asked for *)

Lemma update_children_shape (upd : element -> option element)
    (cs cs' : list element) :
  (forall c c', upd c = Some c' -> tag c' = tag c /\ attrib c' = attrib c) ->
  update_children upd cs = Some cs' ->
  (fun c => (tag c, attrib c)) <$> cs' = (fun c => (tag c, attrib c)) <$> cs.
Proof.
  intros Hupd. revert cs'. induction cs as [|c cs IH]; intros cs' H; cbn in H;
    [discriminate|].
  destruct (upd c) as [c'|] eqn:Hc.
  - injection H as <-. cbn. apply Hupd in Hc as [-> ->]. done.
  - destruct (update_children upd cs) as [cs1|]; cbn in H; [|discriminate].
    injection H as <-. cbn. by rewrite IH.
Qed.

Lemma update_path_shape (path : list step) (f : element -> element)
    (e e' : element) :
  path <> [] -> update_path path f e = Some e' ->
  tag e' = tag e /\ attrib e' = attrib e.
Proof.
  destruct path as [|s path]; [done|]. intros _. cbn.
  destruct (update_children _ (children e)) as [cs|]; cbn; [|done].
  by intros [= <-].
Qed.

Lemma update_path_children_shape (s1 s2 : step) (path : list step)
    (f : element -> element) (e e' : element) :
  update_path (s1 :: s2 :: path) f e = Some e' ->
  tag e' = tag e /\ attrib e' = attrib e
  /\ (fun c => (tag c, attrib c)) <$> children e'
     = (fun c => (tag c, attrib c)) <$> children e.
Proof.
  intros H.
  assert (tag e' = tag e /\ attrib e' = attrib e) as [Ht Ha]
    by (by eapply update_path_shape; [|exact H]).
  do 2 (split; [done|]). cbn [update_path] in H.
  destruct (update_children _ (children e)) as [cs|] eqn:Hcs; cbn in H; [|done].
  injection H as <-. cbn.
  eapply update_children_shape; [|exact Hcs].
  intros c c'. cbn. destruct (step_match s1 c); [|done].
  intros Hc. by eapply (update_path_shape (s2 :: path)).
Qed.

Lemma find_TagName (t n : string) (e c : element) :
  find [TagName t n] e = Some c ->
  c ∈ children e /\ tag c = t /\ get "name" c = Some n.
Proof.
  rewrite find_step. intros H.
  apply head_Some_elem_of, list_elem_of_In, List.filter_In in H as [Hin H].
  split; [by apply list_elem_of_In|]. cbn in H.
  apply andb_true_iff in H as [H1 H2].
  by apply bool_decide_eq_true in H1, H2.
Qed.

Lemma find_TagName_None (t n : string) (e : element) :
  Forall (fun c => tag c = t) (children e) ->
  find [TagName t n] e = None <-> Some n ∉ get "name" <$> children e.
Proof.
  rewrite find_step. induction (children e) as [|c cs IH]; intros Hall; cbn.
  - split; [|done]. intros _ H. by apply elem_of_nil in H.
  - apply Forall_cons in Hall as [Hc Hall]. rewrite bool_decide_eq_true_2 by done.
    cbn. rewrite not_elem_of_cons.
    destruct (decide (get "name" c = Some n)) as [Hn|Hn].
    + rewrite bool_decide_eq_true_2 by done. cbn. split; [done|].
      intros [H _]. congruence.
    + rewrite bool_decide_eq_false_2 by done. rewrite IH by done.
      split; [|by intros [_ ?]]. intros H. split; [congruence|done].
Qed.

Lemma shape_names (cs cs' : list element) :
  (fun c => (tag c, attrib c)) <$> cs' = (fun c => (tag c, attrib c)) <$> cs ->
  tag <$> cs' = tag <$> cs /\ get "name" <$> cs' = get "name" <$> cs.
Proof.
  revert cs'. induction cs as [|c cs IH]; intros [|c' cs']; cbn; try done.
  intros [= Ht Ha H]. apply IH in H as [-> ->].
  unfold get. by rewrite Ht, Ha.
Qed.

Lemma Forall_tag_shape (t : string) (cs cs' : list element) :
  tag <$> cs' = tag <$> cs ->
  Forall (fun c => tag c = t) cs -> Forall (fun c => tag c = t) cs'.
Proof.
  revert cs. induction cs' as [|c' cs' IH]; intros [|c cs]; cbn; try done.
  intros [= Ht H] [Hc Hall]%Forall_cons. constructor; [congruence|by eapply IH].
Qed.

Lemma entry_copy_shape (vsys : option string) (entry c : element) :
  entry_copy vsys entry = Ok c -> tag c = tag entry /\ attrib c = attrib entry.
Proof.
  unfold entry_copy. destruct (specific_vsys vsys); [|by intros [= <-]].
  destruct (remove_first_tag _ _); [|done]. by intros [= <-].
Qed.

Lemma filter_device_step (only_connected : bool) (devices_xml f f' : element)
    (d : requested) :
  Forall (fun c => tag c = "entry") (children f) ->
  filter_device only_connected devices_xml f d = Ok f' ->
  tag f' = tag f
  /\ Forall (fun c => tag c = "entry") (children f')
  /\ get "name" <$> children f'
     = match d with
       | ReqSerial _ => get "name" <$> children f
       | ReqFirewall s _ =>
           if decide (Some s ∈ get "name" <$> children f)
           then get "name" <$> children f
           else ((get "name" <$> children f) ++ [Some s])%list
       end.
Proof.
  intros Hall. unfold filter_device.
  destruct (find _ devices_xml) as [entry|] eqn:Hentry; [|done].
  destruct (yesno _) as [multi_vsys|]; cbn; [|done].
  destruct d as [s|s v]; cbn; [by intros [= <-]|].
  apply find_TagName in Hentry as (_ & Htag & Hname).
  set (filtered := match find [TagName "entry" s] f with
                   | None => _ | Some _ => _ end).
  assert (forall g, filtered = Ok g ->
            tag g = tag f /\ Forall (fun c => tag c = "entry") (children g)
            /\ get "name" <$> children g
               = if decide (Some s ∈ get "name" <$> children f)
                 then get "name" <$> children f
                 else ((get "name" <$> children f) ++ [Some s])%list) as Hg.
  { subst filtered. intros g.
    destruct (find [TagName "entry" s] f) as [c|] eqn:Hf.
    - intros [= <-]. split; [done|]. split; [done|].
      rewrite decide_True; [done|].
      apply find_TagName in Hf as (Hin & _ & Hn). rewrite <- Hn.
      by apply list_elem_of_fmap_2.
    - apply find_TagName_None in Hf; [|done]. rewrite decide_False by done.
      destruct (entry_copy v entry) as [c|] eqn:Hc; cbn; [|done].
      intros [= <-]. cbn. apply entry_copy_shape in Hc as [Hct Hca].
      split; [done|]. split.
      + apply Forall_app. split; [done|]. constructor; [congruence|constructor].
      + rewrite fmap_app. cbn. unfold get in *. by rewrite Hca, Hname. }
  destruct filtered as [g|]; cbn [mbind result_bind]; [|done].
  specialize (Hg g eq_refl) as (Ht & Ha & Hn).
  destruct (specific_vsys v); [|by intros [= <-]].
  destruct (find _ entry) as [vsys_entry|]; [|done].
  match goal with
  | |- match ?u with Some _ => _ | None => _ end = _ -> _ =>
      destruct u as [g'|] eqn:Hup; [|done]
  end.
  change (update_path [TagName "entry" s; Tag "vsys"] (append vsys_entry) g
          = Some g') in Hup.
  intros [= <-]. apply update_path_children_shape in Hup as (Ht' & _ & Hs).
  apply shape_names in Hs as [Hs1 Hs2].
  split; [congruence|]. split; [|congruence].
  by eapply Forall_tag_shape.
Qed.

Lemma filter_devices_inv (only_connected : bool) (devices_xml f f' : element)
    (devices : list requested) :
  Forall (fun c => tag c = "entry") (children f) ->
  NoDup (get "name" <$> children f) ->
  filter_devices only_connected devices_xml f devices = Ok f' ->
  tag f' = tag f
  /\ Forall (fun c => tag c = "entry") (children f')
  /\ NoDup (get "name" <$> children f')
  /\ forall n, n ∈ get "name" <$> children f' <->
       n ∈ get "name" <$> children f
       \/ exists s v, ReqFirewall s v ∈ devices /\ n = Some s.
Proof.
  revert f. induction devices as [|d devices IH]; intros f Hall Hnd; cbn.
  - intros [= <-]. do 3 (split; [done|]). intros n. split; [by left|].
    intros [H|(s & v & H & _)]; [done|]. by apply elem_of_nil in H.
  - destruct (filter_device _ _ f d) as [f1|] eqn:H1; cbn; [|done].
    intros H2. apply filter_device_step in H1 as (T1 & A1 & N1); [|done].
    apply IH in H2 as (T2 & A2 & N2 & M2); [|done|].
    + split; [congruence|]. do 2 (split; [done|]). intros n.
      rewrite M2, N1. destruct d as [s|s v].
      * split.
        -- intros [H|(s' & v' & H & ->)]; [by left|].
           right. exists s', v'. split; [by right|done].
        -- intros [H|(s' & v' & [H|H]%elem_of_cons & ->)]; [by left|done|].
           right. by exists s', v'.
      * destruct (decide _) as [Hin|Hin].
        -- split.
           ++ intros [H|(s' & v' & H & ->)]; [by left|].
              right. exists s', v'. split; [by right|done].
           ++ intros [H|(s' & v' & [H|H]%elem_of_cons & ->)]; [by left| |].
              ** injection H as <- <-. by left.
              ** right. by exists s', v'.
        -- rewrite elem_of_app, list_elem_of_singleton. split.
           ++ intros [[H| ->]|(s' & v' & H & ->)]; [by left| |].
              ** right. exists s, v. split; [by left|done].
              ** right. exists s', v'. split; [by right|done].
           ++ intros [H|(s' & v' & [H|H]%elem_of_cons & ->)]; [by left; left| |].
              ** injection H as <- <-. left. by right.
              ** right. by exists s', v'.
    + rewrite N1. destruct d as [s|s v]; [done|].
      destruct (decide _) as [Hin|Hin]; [done|].
      apply NoDup_app. split; [done|]. split; [|apply NoDup_singleton].
      intros x Hx ->%list_elem_of_singleton. done.
Qed.

(** X18. The device list limited to the devices asked for is a [devices]
    element of [entry] children, one for each serial asked for with a
    [vsys]: no two of its entries have the same name, however often a
    serial is asked for, and its names are exactly these serials. *)
Theorem filter_devices_entries (only_connected : bool)
    (devices_xml filtered : element) (devices : list requested) :
  filter_devices only_connected devices_xml (Element "devices" [] None []) devices
  = Ok filtered ->
  tag filtered = "devices"
  /\ Forall (fun c => tag c = "entry") (children filtered)
  /\ NoDup (get "name" <$> children filtered)
  /\ forall n, n ∈ get "name" <$> children filtered <->
       exists s v, ReqFirewall s v ∈ devices /\ n = Some s.
Proof.
  intros H. apply filter_devices_inv in H as (T & A & N & M);
    [|constructor|constructor].
  do 3 (split; [done|]). intros n. rewrite M. cbn. split; [|by right].
  intros [H|H]; [|done]. by apply elem_of_nil in H.
Qed.

(** * The vsys of a membership *)

(** C7. The memberships of a device-group are read from the merged view:
    the configuration of the device-groups after the status of each
    member was merged into its entry.  Each device-group that
    [refresh_devices] returns is the device-group built from the merged
    view, with one firewall added for each membership looked at, in
    order, (when only connected devices are looked at, for some of them):
    the firewall is a new one of that serial and vsys, or one built from
    the device list, of that serial and vsys.  The memberships looked at
    are, for each member serial that the devices asked for do not exclude:
    the one vsys [vsys1] when the member has no [vsys/entry] in the
    merged view, and otherwise exactly its [vsys/entry] names, in order;
    in both cases without the vsys that the devices asked for exclude. *)
Theorem C7_single_context_vsys1 (devices : list (option requested))
    (only_connected expand_vsys add running_config : bool)
    (self : Panorama) (r : Panorama * list child)
    (config_response status_response merged : element)
    (built : list DeviceGroup) :
  (if running_config then xapi_show else xapi_get) DEVICE_GROUP_XPATH
    = Ok config_response ->
  op "show devicegroups" = Ok status_response ->
  combine_views (find [Tag "result"; Tag "device-group"] config_response)
    (find [Tag "result"; Tag "devicegroups"] status_response) = Ok (Some merged) ->
  dg_refreshall_from_xml (Some merged) false = Ok built ->
  refresh_devices devices only_connected expand_vsys true add running_config self
    = Ok r ->
  let asked := omap id devices in
  let vsys_of dg dg_serial :=
    if bool_decide (declared_vsys merged dg dg_serial = [])
    then [Some "vsys1"] else declared_vsys merged dg dg_serial in
  let looked_at dg :=
    flat_map
      (fun dg_serial =>
         if serial_skipped asked dg_serial then []
         else (fun dg_vsys => (dg_serial, dg_vsys)) <$>
              List.filter (fun dg_vsys => negb (vsys_skipped asked dg_vsys))
                (vsys_of dg dg_serial))
      (dg_serials merged dg) in
  exists (fws ungrouped : list Firewall) (reconciled : list DeviceGroup),
    let addrs := seq (length (pan_heap self)) (length reconciled) in
    let self' := mkPanorama (pan_children self) (pan_heap self ++ reconciled) in
    r = (if add then add_to_tree ungrouped addrs self' else self',
         ((ChildFirewall <$> ungrouped) ++ (ChildDeviceGroup <$> addrs))%list)
    /\ Forall2
         (fun dg dg' =>
            dg_name dg' = dg_name dg
            /\ exists kept added,
                 dg_children dg'
                 = (dg_children dg ++ (ChildFirewall <$> added))%list
                 /\ kept `sublist_of` looked_at dg
                 /\ (only_connected = false -> kept = looked_at dg)
                 /\ Forall2 (member_child only_connected fws) kept added)
         built reconciled.
Proof.
  intros Hcfg Hst Hmerge Hbuilt. unfold refresh_devices.
  destruct (op (if only_connected then _ else _)) as [x1|]; cbn; [|done].
  destruct (requested_devices_xml _ _ _) as [x2|]; cbn; [|done].
  destruct (expanded_devices_xml _ _) as [x3|]; cbn; [|done].
  destruct (fw_refreshall_from_xml _ _) as [fws|]; cbn; [|done].
  rewrite Hcfg. cbn. rewrite Hst. cbn. rewrite Hmerge. cbn. rewrite Hbuilt. cbn.
  destruct (attach_groups _ _ _ _ _) as [[ungrouped reconciled]|] eqn:Hg;
    cbn; [|done].
  intros [= <-]. exists fws, ungrouped, reconciled. split; [done|].
  pose proof (attach_groups_attached _ _ _ _ _ _ Hg) as (_ & Hnames & _).
  apply attach_groups_members in Hg. cbn in Hg, Hnames.
  clear -Hg Hnames. induction Hg as [|dg dg' l l' Hdg Hg IH]; [constructor|].
  apply Forall2_cons in Hnames as [(Hn & _) Hnames].
  constructor; [|by apply IH]. split; [done|]. exact Hdg.
Qed.

End Pandevice.

(** * The embedding on concrete inputs *)

Abbreviation sample_refresh_devices :=
  (refresh_devices yesno_of xml_combine_of fw_refreshall_of dg_refreshall_of
     set_shared_policy_synced_of "pano" sample_op sample_get sample_get).

Abbreviation sample_init :=
  (__init__ "/config/devices/entry/network/interface"
     "/config/devices/entry/vsys/entry/zone"
     "/config/devices/entry/network/virtual-router/entry/interface"
     tostring_of no_fault).

Abbreviation sample_xpath := (_xpath "/config/devices/entry/network/interface").

(** The scenario of the specification: [DG1] gets the one device (S1,
    vsys1), in sync, and (S1, vsys2) stays ungrouped. *)
Example refresh_devices_scenario :
  sample_refresh_devices [] false true true false false sample_panorama
  = Ok (mkPanorama (pan_children sample_panorama)
          (pan_heap sample_panorama ++
             [mkDeviceGroup (Some "DG1") None
                [ChildFirewall
                   (mkFirewall (Some "S1") (Some "vsys1") (Some "first") None None
                      None (Some true) (Some true))]]),
        [ChildFirewall
           (mkFirewall (Some "S1") (Some "vsys2") (Some "second") None None None
              (Some true) None);
         ChildDeviceGroup 1]).
Proof. vm_compute. reflexivity. Qed.

(** The same with [add]: the firewalls of the root and of the [DG1] of the
    tree are replaced, the administrator and the address object stay. *)
Example refresh_devices_scenario_add :
  (fun r => (pan_children r.1, dg_children <$> pan_heap r.1 !! 0%nat)) <$>
    sample_refresh_devices [] false true true true false sample_panorama
  = Ok ([ChildOther "device.Administrator" (Some "admin");
         ChildDeviceGroup 0;
         ChildFirewall
           (mkFirewall (Some "S1") (Some "vsys2") (Some "second") None None None
              (Some true) None)],
        Some [ChildOther "objects.AddressObject" (Some "web");
              ChildFirewall
                (mkFirewall (Some "S1") (Some "vsys1") (Some "first") None None
                   None (Some true) (Some true))]).
Proof. vm_compute. reflexivity. Qed.

(** A device-group member that the operational view does not know. *)
Example refresh_devices_unknown_member :
  (fun r => r.2) <$>
    refresh_devices yesno_of xml_combine_of fw_refreshall_of dg_refreshall_of
      set_shared_policy_synced_of "pano"
      (fun cmd =>
         if decide (cmd = "show devicegroups") then Ok (response sample_devicegroups)
         else Ok (response (xml_node "devices" [])))
      sample_get sample_get [] false true true false false (mkPanorama [] [])
  = Ok [ChildDeviceGroup 0]
  /\ (fun r => pan_heap r.1) <$>
       refresh_devices yesno_of xml_combine_of fw_refreshall_of dg_refreshall_of
         set_shared_policy_synced_of "pano"
         (fun cmd =>
            if decide (cmd = "show devicegroups") then Ok (response sample_devicegroups)
            else Ok (response (xml_node "devices" [])))
         sample_get sample_get [] false true true false false (mkPanorama [] [])
     = Ok [mkDeviceGroup (Some "DG1") None
             [ChildFirewall (FIREWALL_CLASS (Some "S1") (Some "vsys1"))]].
Proof. split; vm_compute; reflexivity. Qed.

Example interface_subunit_xpath :
  (fun i => fst <$> sample_xpath i) <$>
    (sample_init (Some "ethernet1/3") "ethernet" "layer3" (Some "20") (Some "trust")
       (SubnetsOne "10.0.0.1/24") (Some "default") None false None None no_device).2
  = Ok (Ok "/config/devices/entry/network/interface/ethernet/entry[@name='ethernet1/3']/layer3/units/entry[@name='ethernet1/3.20']").
Proof. vm_compute. reflexivity. Qed.

Example interface_apply_calls :
  calls
    ((i ← sample_init (Some "ethernet1/3") "ethernet" "layer3" None (Some "trust")
            SubnetsNone (Some "default") (Some "fw") false None None;
      apply "/config/devices/entry/network/interface"
        "/config/devices/entry/vsys/entry/zone"
        "/config/devices/entry/network/virtual-router/entry/interface"
        tostring_of no_fault i) no_device).1
  = [xapi_edit "/config/devices/entry/network/interface/ethernet/entry[@name='ethernet1/3']"
       "<entry name='ethernet1/3'><layer3></layer3></entry>";
     xapi_set "/config/devices/entry/vsys/entry/zone/entry[@name='trust']/network/layer3"
       "<member>ethernet1/3</member>";
     xapi_set "/config/devices/entry/network/virtual-router/entry/interface"
       "<member>ethernet1/3</member>"].
Proof. vm_compute. reflexivity. Qed.

(** The simple reader of device records reads them as the
    specification says. *)
Lemma fw_refreshall_of_reads : reads_device_records fw_refreshall_of.
Proof.
  intros xml. eexists. split; [reflexivity|].
  apply Forall2_fmap_r, Forall2_diag.
  intros entry. unfold device_record_of, firewall_of_entry. cbn.
  split; [done|]. split; [by intros v ->|by intros n ->].
Qed.

(** * The properties on concrete inputs *)

(** C4 on the sub-interface [ethernet1/3.20]. *)
Lemma C4_ethernet_xpath_witness :
  type sample_subinterface = "ethernet"
  /\ fst <$> sample_xpath sample_subinterface
     = Ok "/config/devices/entry/network/interface/ethernet/entry[@name='ethernet1/3']/layer3/units/entry[@name='ethernet1/3.20']".
Proof.
  split; [reflexivity|].
  exact (proj1 (C4_ethernet_xpath "/config/devices/entry/network/interface"
                  sample_subinterface eq_refl)).
Defined.

(** C9 on the name [ethernet1/3.20] given without a tag. *)
Lemma C9_init_name_tag_witness :
  (sample_init (Some "ethernet1/3.20") "ethernet" "layer3" None None SubnetsNone
     (Some "default") None false None None no_device).2 = Ok sample_subinterface
  /\ exists n, Some "ethernet1/3.20" = Some n
       /\ name sample_subinterface = Some n
       /\ if Re.search re_dot_digits_end n
          then forall a b, Re.split "." n = [a; b] ->
                 _tag sample_subinterface = Some b /\ n = a ++ "." ++ b
          else _tag sample_subinterface = None.
Proof.
  split; [reflexivity|].
  exact (C9_init_name_tag "/config/devices/entry/network/interface"
           "/config/devices/entry/vsys/entry/zone"
           "/config/devices/entry/network/virtual-router/entry/interface"
           tostring_of no_fault
           (Some "ethernet1/3.20") "ethernet" "layer3" None None SubnetsNone
           (Some "default") None false None None no_device sample_subinterface
           eq_refl).
Defined.


(** C7 on the member [S3] of [DG2], which has no vsys in the merged
    view: [DG2] gets one firewall, for the membership (S3, vsys1). *)
Lemma C7_single_context_vsys1_witness :
  declared_vsys sample_single_context_config
    (mkDeviceGroup (Some "DG2") None []) (Some "S3") = []
  /\ exists fws fw',
       member_child set_shared_policy_synced_of false fws
         (Some "S3", Some "vsys1") fw'
       /\ (fun r => dg_children <$> pan_heap r.1) <$>
            refresh_devices yesno_of xml_combine_of fw_refreshall_of
              dg_refreshall_of set_shared_policy_synced_of "pano" sample_op
              (fun _ => Ok (response sample_single_context_config))
              (fun _ => Ok (response sample_single_context_config))
              [] false true true false false (mkPanorama [] [])
          = Ok [[ChildFirewall fw']].
Proof.
  split; [reflexivity|].
  destruct (C7_single_context_vsys1 yesno_of xml_combine_of fw_refreshall_of
              dg_refreshall_of set_shared_policy_synced_of "pano" sample_op
              (fun _ => Ok (response sample_single_context_config))
              (fun _ => Ok (response sample_single_context_config))
              [] false true false false (mkPanorama [] [])
              (mkPanorama []
                 [mkDeviceGroup (Some "DG2") None
                    [ChildFirewall (FIREWALL_CLASS (Some "S3") (Some "vsys1"))]],
               [ChildFirewall
                  (mkFirewall (Some "S1") (Some "vsys1") (Some "first") None None
                     None (Some true) None);
                ChildFirewall
                  (mkFirewall (Some "S1") (Some "vsys2") (Some "second") None None
                     None (Some true) None);
                ChildDeviceGroup 0])
              (response sample_single_context_config)
              (response sample_devicegroups)
              sample_single_context_config
              [mkDeviceGroup (Some "DG2") None []]
              eq_refl eq_refl eq_refl eq_refl eq_refl)
    as (fws & ungrouped & reconciled & Hr & Hgroups).
  apply Forall2_cons_inv_l in Hgroups
    as (dg' & rest & (_ & kept & added & Hchildren & _ & Hkept & Hadded) & Hrest & ->).
  apply Forall2_nil_inv_l in Hrest as ->.
  specialize (Hkept eq_refl). vm_compute in Hkept. subst kept.
  apply Forall2_cons_inv_l in Hadded as (fw' & rest & Hfw & Hrest & ->).
  apply Forall2_nil_inv_l in Hrest as ->.
  exists fws, fw'. split; [exact Hfw|].
  cbn in Hr, Hchildren. simplify_eq. cbn in Hchildren. simplify_eq.
  vm_compute. reflexivity.
Defined.

(** C7: the member [S3] of [DG2] declares no vsys, and the status of the
    device-groups lists the vsys [vsys2] and [vsys3] for it: it is
    reconciled as these two, not as [vsys1].  And [DG1] declares the
    member [S1] with [vsys1], and the device asked for is the [vsys2] of
    [S1]: the declared vsys is not used, [DG1] gets no firewall. *)
Lemma C7_single_context_vsys1_counterexample :
  (declared_vsys sample_single_context_config
     (mkDeviceGroup (Some "DG2") None []) (Some "S3") = []
   /\ (fun r => dg_children <$> pan_heap r.1) <$>
        refresh_devices yesno_of xml_combine_of fw_refreshall_of dg_refreshall_of
          set_shared_policy_synced_of "pano"
          (fun cmd =>
             if decide (cmd = "show devicegroups")
             then Ok (response sample_multi_vsys_status)
             else Ok (response (xml_node "devices" [])))
          (fun _ => Ok (response sample_single_context_config))
          (fun _ => Ok (response sample_single_context_config))
          [] false true true false false (mkPanorama [] [])
      = Ok [[ChildFirewall (FIREWALL_CLASS (Some "S3") (Some "vsys2"));
             ChildFirewall (FIREWALL_CLASS (Some "S3") (Some "vsys3"))]])
  /\ (declared_vsys sample_devicegroup_config
        (mkDeviceGroup (Some "DG1") None []) (Some "S1") = [Some "vsys1"]
      /\ (fun r => dg_children <$> pan_heap r.1) <$>
           sample_refresh_devices [Some (ReqFirewall "S1" (Some "vsys2"))]
             false true true false false (mkPanorama [] [])
         = Ok [[]]).
Proof. repeat split; vm_compute; reflexivity. Qed.


(** C2: the serial [S2] is requested and absent and [only_connected] is
    set, yet the error raised is the not-attached one, for the vsys of the
    device requested before it. *)
Lemma C2_requested_serial_absent_counterexample :
  find [TagName "entry" "S2"] sample_devices = None
  /\ sample_refresh_devices
       [Some (ReqFirewall "S1" (Some "vsys9")); Some (ReqSerial "S2")]
       true true true false false sample_panorama
     = Raise (PanNotAttachedOnPanorama
                "Can't find device with serial S1 and vsys vsys9 attached to Panorama at pano")
  /\ forall msg,
       sample_refresh_devices
         [Some (ReqFirewall "S1" (Some "vsys9")); Some (ReqSerial "S2")]
         true true true false false sample_panorama
       <> Raise (PanNotConnectedOnPanorama msg).
Proof.
  split; [reflexivity|].
  assert (sample_refresh_devices
            [Some (ReqFirewall "S1" (Some "vsys9")); Some (ReqSerial "S2")]
            true true true false false sample_panorama
          = Raise (PanNotAttachedOnPanorama
                     "Can't find device with serial S1 and vsys vsys9 attached to Panorama at pano"))
    as H by (vm_compute; reflexivity).
  split; [exact H|]. intros msg. rewrite H. discriminate.
Qed.

(** C2 on the absent serial [S2], requested after the present [S1]. *)
Lemma C2_requested_serial_absent_witness :
  find [TagName "entry" "S2"] sample_devices = None
  /\ sample_refresh_devices [Some (ReqSerial "S1"); None; Some (ReqSerial "S2")]
       true true true false false sample_panorama
     = Raise (PanNotConnectedOnPanorama
                "Can't find device with serial S2 attached and connected to Panorama at pano").
Proof.
  split; [reflexivity|].
  exact (proj2
           (C2_requested_serial_absent yesno_of xml_combine_of fw_refreshall_of
              dg_refreshall_of set_shared_policy_synced_of "pano" sample_op
              sample_get sample_get
              [Some (ReqSerial "S1"); None; Some (ReqSerial "S2")]
              true true true false false sample_panorama
              (response sample_devices) sample_devices
              [ReqSerial "S1"] [] (ReqSerial "S2")
              eq_refl eq_refl eq_refl eq_refl)
           eq_refl).
Defined.


(** C9: a name that ends in [.5] given with the tag 7 is stored as it is
    beside the tag [7]: both a name with a suffix and a tag are present,
    and the suffix is not the tag. *)
Lemma C9_init_name_tag_counterexample :
  exists i,
    (sample_init (Some "ethernet1/1.5") "ethernet" "layer3" (Some "7") None
       SubnetsNone (Some "default") None false None None no_device).2 = Ok i
    /\ Re.search re_dot_digits_end (pystr (name i)) = true
    /\ name i = Some ("ethernet1/1" ++ "." ++ "5")
    /\ _tag i = Some "7" /\ _tag i <> Some "5".
Proof.
  eexists. split; [vm_compute; reflexivity|].
  split; [vm_compute; reflexivity|]. by repeat split.
Qed.

(** * The further properties on concrete inputs *)

(** An interface of a type that has no xpath, on a device. *)
Lemma failing_xpath_partial_effects_witness :
  sample_xpath sample_tunnel = Raise (PanDeviceError "Unknown interface type: tunnel")
  /\ (apply "/config/devices/entry/network/interface"
        "/config/devices/entry/vsys/entry/zone"
        "/config/devices/entry/network/virtual-router/entry/interface"
        tostring_of no_fault sample_tunnel no_device).1 = mkPanDevice true []
  /\ length (calls (delete "/config/devices/entry/network/interface"
                      "/config/devices/entry/vsys/entry/zone"
                      "/config/devices/entry/network/virtual-router/entry/interface"
                      no_fault sample_tunnel no_device).1) = 1%nat.
Proof.
  split; [reflexivity|].
  destruct (failing_xpath_partial_effects
              "/config/devices/entry/network/interface"
              "/config/devices/entry/vsys/entry/zone"
              "/config/devices/entry/network/virtual-router/entry/interface"
              tostring_of no_fault sample_tunnel no_device
              (PanDeviceError "Unknown interface type: tunnel")
              eq_refl ltac:(discriminate)
              (fun _ => eq_refl)) as [Happly Hdelete].
  rewrite Happly, Hdelete. split; reflexivity.
Defined.

(** The interface [ethernet1/3] in the zone [trust], on a device. *)
Lemma apply_delete_complete_witness :
  (apply "/config/devices/entry/network/interface"
     "/config/devices/entry/vsys/entry/zone"
     "/config/devices/entry/network/virtual-router/entry/interface"
     tostring_of no_fault sample_ethernet no_device).2 = Ok tt
  /\ length (calls (apply "/config/devices/entry/network/interface"
                      "/config/devices/entry/vsys/entry/zone"
                      "/config/devices/entry/network/virtual-router/entry/interface"
                      tostring_of no_fault sample_ethernet no_device).1) = 3%nat
  /\ last (calls (delete "/config/devices/entry/network/interface"
                    "/config/devices/entry/vsys/entry/zone"
                    "/config/devices/entry/network/virtual-router/entry/interface"
                    no_fault sample_ethernet no_device).1)
     = Some (xapi_delete
               "/config/devices/entry/network/interface/ethernet/entry[@name='ethernet1/3']").
Proof.
  destruct (sample_xpath sample_ethernet) as [[xpath root]|e] eqn:Hx;
    [|vm_compute in Hx; discriminate Hx].
  destruct (tostring_of root) as [s|e] eqn:Hs;
    [|vm_compute in Hx; injection Hx as <- <-; vm_compute in Hs; discriminate Hs].
  destruct (apply_delete_complete
              "/config/devices/entry/network/interface"
              "/config/devices/entry/vsys/entry/zone"
              "/config/devices/entry/network/virtual-router/entry/interface"
              tostring_of no_fault sample_ethernet no_device xpath s root Hx Hs
              ltac:(discriminate)
              (fun _ => eq_refl)) as [Happly Hdelete].
  rewrite Happly, Hdelete. vm_compute in Hx. injection Hx as <- <-.
  split; [reflexivity|]. split; reflexivity.
Defined.

(** The element of the sub-interface [ethernet1/3.20]. *)
Lemma xpath_element_witness :
  exists xpath root,
    sample_xpath sample_subinterface = Ok (xpath, root)
    /\ tag root = "entry" /\ attrib root = [("name", Some "ethernet1/3.20")].
Proof.
  destruct (sample_xpath sample_subinterface) as [[xpath root]|e] eqn:Hx;
    [|vm_compute in Hx; discriminate Hx].
  exists xpath, root. split; [reflexivity|].
  destruct (xpath_element "/config/devices/entry/network/interface"
              sample_subinterface xpath root Hx) as (Htag & Hattrib & _).
  split; [exact Htag|exact Hattrib].
Defined.

(** The name [ethernet1/3] given with the tag [20], and the name it
    gives, given again without a tag. *)
Lemma init_name_tag_round_trip_witness :
  exists i,
    (sample_init (Some "ethernet1/3") "ethernet" "layer3" (Some "20") None
       SubnetsNone (Some "default") None false None None no_device).2 = Ok i
    /\ name i = Some "ethernet1/3.20"
    /\ (sample_init (Some "ethernet1/3.20") "ethernet" "layer3" None None
          SubnetsNone (Some "default") None false None None no_device).2 = Ok i.
Proof.
  destruct (init_name_tag_round_trip
              "/config/devices/entry/network/interface"
              "/config/devices/entry/vsys/entry/zone"
              "/config/devices/entry/network/virtual-router/entry/interface"
              tostring_of no_fault "ethernet1/3" "20" "ethernet" "layer3" None
              SubnetsNone (Some "default") None None None no_device)
    as (i & Hmade & Hname & _ & Hagain).
  - cbn. rewrite !not_elem_of_cons. repeat split; try discriminate.
    apply not_elem_of_nil.
  - reflexivity.
  - discriminate.
  - exists i. rewrite Hname in Hagain. rewrite Hmade.
    split; [reflexivity|]. split; [exact Hname|].
    change (Some ("ethernet1/3" ++ "." ++ "20")) with (Some "ethernet1/3.20") in Hagain.
    rewrite Hagain. reflexivity.
Defined.

(** A command given as a string, with and without a device-group. *)
Lemma commit_all_given_cmd_witness :
  commit_all tostring_of string id string (fun _ _ _ _ cmd => Ok cmd)
    false true false (Some "DG1") ["S1"] (CmdStr string "<commit-all/>")
  = commit_all tostring_of string id string (fun _ _ _ _ cmd => Ok cmd)
      false true false None [] (CmdStr string "<commit-all/>").
Proof.
  refine (proj1 (commit_all_given_cmd tostring_of string id string
                   (fun _ _ _ _ cmd => Ok cmd) false true false
                   (Some "DG1") None ["S1"] [] (CmdStr string "<commit-all/>") _)).
  discriminate.
Defined.

(** The device-group [DG1] of the sample configuration, and the two
    firewalls of [S1]. *)
Lemma attach_groups_structure_witness :
  exists r,
    attach_groups set_shared_policy_synced_of [] false
      (Some sample_devicegroup_config) [mkDeviceGroup (Some "DG1") None []]
      [FIREWALL_CLASS (Some "S1") (Some "vsys1");
       FIREWALL_CLASS (Some "S1") (Some "vsys2")] = Ok r
    /\ r.1 `sublist_of` [FIREWALL_CLASS (Some "S1") (Some "vsys1");
                         FIREWALL_CLASS (Some "S1") (Some "vsys2")]
    /\ dg_name <$> r.2 = [Some "DG1"].
Proof.
  destruct (attach_groups set_shared_policy_synced_of [] false
              (Some sample_devicegroup_config) [mkDeviceGroup (Some "DG1") None []]
              [FIREWALL_CLASS (Some "S1") (Some "vsys1");
               FIREWALL_CLASS (Some "S1") (Some "vsys2")]) as [r|e] eqn:Hrun;
    [|vm_compute in Hrun; discriminate Hrun].
  exists r. split; [reflexivity|].
  destruct (attach_groups_structure set_shared_policy_synced_of _ _ _ _ _ _ Hrun)
    as (Hsub & Hnames & _).
  split; [exact Hsub|exact Hnames].
Defined.

(** The same, looking at connected devices only: one of the two firewalls
    is moved into [DG1]. *)
Lemma attach_groups_conservation_witness :
  exists r,
    attach_groups set_shared_policy_synced_of [] true
      (Some sample_devicegroup_config) [mkDeviceGroup (Some "DG1") None []]
      [FIREWALL_CLASS (Some "S1") (Some "vsys1");
       FIREWALL_CLASS (Some "S1") (Some "vsys2")] = Ok r
    /\ length r.1 + length (r.2 ≫= dg_children) = 2.
Proof.
  destruct (attach_groups set_shared_policy_synced_of [] true
              (Some sample_devicegroup_config) [mkDeviceGroup (Some "DG1") None []]
              [FIREWALL_CLASS (Some "S1") (Some "vsys1");
               FIREWALL_CLASS (Some "S1") (Some "vsys2")]) as [r|e] eqn:Hrun;
    [|vm_compute in Hrun; discriminate Hrun].
  exists r. split; [reflexivity|].
  exact (proj2 (attach_groups_conservation set_shared_policy_synced_of _ _ _ _ _ _
                  Hrun) eq_refl).
Defined.

(** The scenario of the specification. *)
Lemma refresh_devices_returns_witness :
  exists r fws dgs,
    sample_refresh_devices [] false true true false false sample_panorama = Ok r
    /\ r.2 = ((ChildFirewall <$> fws)
              ++ (ChildDeviceGroup <$> seq 1 (length dgs)))%list
    /\ pan_children r.1 = pan_children sample_panorama
    /\ pan_heap r.1 = (pan_heap sample_panorama ++ dgs)%list.
Proof.
  destruct (sample_refresh_devices [] false true true false false sample_panorama)
    as [r|e] eqn:Hrun; [|vm_compute in Hrun; discriminate Hrun].
  destruct (refresh_devices_returns yesno_of xml_combine_of fw_refreshall_of
              dg_refreshall_of set_shared_policy_synced_of "pano" sample_op
              sample_get sample_get _ _ _ _ _ _ _ _ Hrun)
    as (fws & dgs & Hlist & _ & _ & Hframe & _).
  exists r, fws, dgs. split; [reflexivity|]. split; [exact Hlist|].
  exact (Hframe eq_refl).
Defined.

(** The device [S1] asked for by its serial number alone. *)
Lemma plain_serials_empty_device_list_witness :
  exists r fws ungrouped,
    sample_refresh_devices [Some (ReqSerial "S1")] false true true false false
      sample_panorama = Ok r
    /\ fw_refreshall_of (Some (Element "devices" [] None [])) false = Ok fws
    /\ ungrouped `sublist_of` fws
    /\ List.filter is_firewall r.2 = ChildFirewall <$> ungrouped.
Proof.
  destruct (sample_refresh_devices [Some (ReqSerial "S1")] false true true false
              false sample_panorama)
    as [r|e] eqn:Hrun; [|vm_compute in Hrun; discriminate Hrun].
  destruct (plain_serials_empty_device_list yesno_of xml_combine_of
              fw_refreshall_of dg_refreshall_of set_shared_policy_synced_of "pano"
              sample_op sample_get sample_get ["S1"] _ _ _ _ _ _ _
              ltac:(discriminate) Hrun)
    as (fws & ungrouped & Hread & Hsub & Hlist & _).
  exists r, fws, ungrouped. split; [reflexivity|].
  split; [exact Hread|]. split; [exact Hsub|exact Hlist].
Defined.

(** A configuration whose member [S3] has no status. *)
Lemma combine_views_no_status_entry_witness :
  combine_views xml_combine_of (Some sample_single_context_config)
    (Some sample_devicegroups)
  = Ok (Some sample_single_context_config).
Proof.
  apply (combine_views_no_status_entry xml_combine_of).
  intros g devices m Hg Hdevices Hm. cbn in Hg.
  apply list_elem_of_singleton in Hg. subst g.
  vm_compute in Hdevices. injection Hdevices as <-. cbn in Hm.
  apply list_elem_of_singleton in Hm. subst m. reflexivity.
Defined.

(** The sample configuration and status. *)
Lemma combine_views_keeps_groups_witness :
  exists merged,
    combine_views xml_combine_of (Some sample_devicegroup_config)
      (Some sample_devicegroups) = Ok (Some merged)
    /\ tag merged = "device-group"
    /\ length (children merged) = 1.
Proof.
  destruct (combine_views xml_combine_of (Some sample_devicegroup_config)
              (Some sample_devicegroups)) as [[merged|]|e] eqn:Hrun;
    [|vm_compute in Hrun; discriminate Hrun|vm_compute in Hrun; discriminate Hrun].
  pose proof (combine_views_keeps_groups xml_combine_of _ _ _ Hrun)
    as (Htag & _ & _ & Hgroups).
  exists merged. split; [reflexivity|]. split; [exact Htag|].
  symmetry. exact (Forall2_length _ _ _ Hgroups).
Defined.

(** The device [S1] asked for twice, with each of its vsys. *)
Lemma filter_devices_entries_witness :
  exists filtered,
    filter_devices yesno_of "pano" false sample_devices
      (Element "devices" [] None [])
      [ReqFirewall "S1" (Some "vsys1"); ReqFirewall "S1" (Some "vsys2")]
    = Ok filtered
    /\ tag filtered = "devices"
    /\ NoDup (get "name" <$> children filtered).
Proof.
  destruct (filter_devices yesno_of "pano" false sample_devices
              (Element "devices" [] None [])
              [ReqFirewall "S1" (Some "vsys1"); ReqFirewall "S1" (Some "vsys2")])
    as [filtered|e] eqn:Hrun; [|vm_compute in Hrun; discriminate Hrun].
  destruct (filter_devices_entries yesno_of "pano" _ _ _ _ Hrun)
    as (Htag & _ & Hnodup & _).
  exists filtered. split; [reflexivity|]. split; [exact Htag|exact Hnodup].
Defined.

(** * The patterns on concrete names *)

Example search_dot_digits_1 : Re.search re_dot_digits_end "ethernet1/1.5" = true.
Proof. reflexivity. Qed.
Example search_dot_digits_2 : Re.search re_dot_digits_end "ethernet1/1" = false.
Proof. reflexivity. Qed.
Example search_dot_digits_3 : Re.search re_dot_digits_end "ae1.23x" = false.
Proof. reflexivity. Qed.
Example search_subunit_1 :
  Re.search_group re_subunit_group re_subunit_rest "ethernet1/12.300"
  = Some "ethernet1/12".
Proof. reflexivity. Qed.
Example search_subunit_2 :
  Re.search_group re_subunit_group re_subunit_rest "ethernet10/1.5" = None.
Proof. reflexivity. Qed.
Example search_subunit_3 :
  Re.search_group re_subunit_group re_subunit_rest "ethernet1/1234.5" = None.
Proof. reflexivity. Qed.
Example split_1 : Re.split "." "ae1.2.3" = ["ae1"; "2"; "3"].
Proof. reflexivity. Qed.

